(** * pytube captions: a shallow embedding of [pytube/captions.py]

    The development follows the class [Caption]: construction from a
    caption-track descriptor, the two timestamp formatters, and the two
    generators that turn a timed-text XML document into a transcript or
    into SubRip text.

    Conventions.
    - A Python [str] is a [string] holding its UTF-8 encoding; every
      pattern the module searches for is ASCII, so byte-wise search and
      replacement agree with the code-point-wise ones.
    - A Python [float] is a primitive binary64 [float]; exact values are
      read off through [Prim2SF].
    - A call that may raise returns [exc A]; the exception classes are the
      constructors of [exn].
    - What the module imports from the Python library and cannot be
      written down here in full (the XML parser, [float(str)], the HTML
      entity tables) is a field of the class [PyLib]. *)

From Stdlib Require Import ZArith List Bool Lia Ascii String Floats Uint63.
From Stdlib Require Import DecimalString.
Import ListNotations.

Open Scope string_scope.
Open Scope Z_scope.

(** ** Exceptions *)

Inductive exn : Type :=
| ParseError
| AssertionError (msg : string)
| KeyError (key : string)
| ValueError
| OverflowError
| OSError
| IndexError
| AttributeError (attr : string).

Inductive exc (A : Type) : Type :=
| Ok (a : A)
| Raise (e : exn).
Arguments Ok {A} a.
Arguments Raise {A} e.

Definition bind {A B : Type} (m : exc A) (k : A -> exc B) : exc B :=
  match m with
  | Ok a => k a
  | Raise e => Raise e
  end.

Notation "x <- m ;; k" := (bind m (fun x => k))
  (at level 61, m at next level, right associativity).
Notation "' pat <- m ;; k" := (bind m (fun x => match x with pat => k end))
  (at level 61, pat pattern, m at next level, right associativity).

(** ** Strings *)

Module Str.

(** [sep.join(l)] *)
Definition join (sep : string) (l : list string) : string :=
  String.concat sep l.

(** [s.replace(old, new)] for a non-empty [old]: the occurrences are
    found from the left and do not overlap.  [skip] counts the characters
    of the occurrence in progress that are still to be dropped. *)
Fixpoint replace_from (old new : string) (skip : nat) (s : string) : string :=
  match s with
  | EmptyString => EmptyString
  | String c s' =>
      match skip with
      | S k => replace_from old new k s'
      | O =>
          if String.prefix old s
          then new ++ replace_from old new (Nat.pred (String.length old)) s'
          else String c (replace_from old new O s')
      end
  end.

Definition replace (old new s : string) : string :=
  replace_from old new O s.

(** [old in s] *)
Fixpoint contains (old s : string) : bool :=
  String.prefix old s ||
  match s with
  | EmptyString => false
  | String _ s' => contains old s'
  end.

Fixpoint rev_onto (s acc : string) : string :=
  match s with
  | EmptyString => acc
  | String c s' => rev_onto s' (String c acc)
  end.

Definition rev (s : string) : string := rev_onto s EmptyString.

(** [s.strip(chars)] for a one-character [chars]. *)
Fixpoint lstrip_char (ch : ascii) (s : string) : string :=
  match s with
  | String c s' => if Ascii.eqb c ch then lstrip_char ch s' else s
  | EmptyString => EmptyString
  end.

Definition strip_char (ch : ascii) (s : string) : string :=
  rev (lstrip_char ch (rev (lstrip_char ch s))).

(** Whitespace as [str.strip()] sees it: the code points for which
    [str.isspace] holds.  The ASCII ones are TAB, LF, VT, FF, CR, FS, GS,
    RS, US and SPACE. *)
Definition ascii_space (c : ascii) : bool :=
  let n := nat_of_ascii c in
  ((9 <=? n) && (n <=? 13) || (28 <=? n) && (n <=? 32))%nat.

(** The others are U+0085, U+00A0 (two bytes in UTF-8) and U+1680,
    U+2000..U+200A, U+2028, U+2029, U+202F, U+205F, U+3000 (three). *)
Definition space2 (b1 b2 : ascii) : bool :=
  let n1 := nat_of_ascii b1 in
  let n2 := nat_of_ascii b2 in
  ((n1 =? 194) && ((n2 =? 133) || (n2 =? 160)))%nat.

Definition space3 (b1 b2 b3 : ascii) : bool :=
  let n1 := nat_of_ascii b1 in
  let n2 := nat_of_ascii b2 in
  let n3 := nat_of_ascii b3 in
  ((n1 =? 225) && (n2 =? 154) && (n3 =? 128)
   || (n1 =? 226) && (n2 =? 128)
      && ((128 <=? n3) && (n3 <=? 138) || (n3 =? 168) || (n3 =? 169) || (n3 =? 175))
   || (n1 =? 226) && (n2 =? 129) && (n3 =? 159)
   || (n1 =? 227) && (n2 =? 128) && (n3 =? 128))%nat.

Fixpoint lstrip (s : string) : string :=
  match s with
  | EmptyString => EmptyString
  | String b1 s1 =>
      if ascii_space b1 then lstrip s1
      else
        match s1 with
        | String b2 s2 =>
            if space2 b1 b2 then lstrip s2
            else
              match s2 with
              | String b3 s3 => if space3 b1 b2 b3 then lstrip s3 else s
              | EmptyString => s
              end
        | EmptyString => s
        end
  end.

(** The same scan on the reversed string, where the bytes of a
    character come last byte first. *)
Fixpoint lstrip_rev (s : string) : string :=
  match s with
  | EmptyString => EmptyString
  | String b1 s1 =>
      if ascii_space b1 then lstrip_rev s1
      else
        match s1 with
        | String b2 s2 =>
            if space2 b2 b1 then lstrip_rev s2
            else
              match s2 with
              | String b3 s3 => if space3 b3 b2 b1 then lstrip_rev s3 else s
              | EmptyString => s
              end
        | EmptyString => s
        end
  end.

Definition rstrip (s : string) : string := rev (lstrip_rev (rev s)).

(** [s.strip()] *)
Definition strip (s : string) : string := rstrip (lstrip s).

(** [str(n)] for a non-negative [int]. *)
Definition of_nat (n : nat) : string :=
  NilZero.string_of_uint (Nat.to_uint n).

Definition of_Z (z : Z) : string :=
  if z <? 0 then "-" ++ of_nat (Z.to_nat (- z)) else of_nat (Z.to_nat z).

(** [n] written with at least [width] digits, zero-padded on the left:
    the [%02d] of [strftime] and the digits of a fixed-point format. *)
Fixpoint zeros (k : nat) : string :=
  match k with
  | O => EmptyString
  | S k' => String "0" (zeros k')
  end.

Definition zfill (width : nat) (s : string) : string :=
  zeros (width - String.length s) ++ s.

End Str.

(** ** Floats: [math.modf] and the [.3f] format *)

Module PyFloat.

Definition signed_zero (s : bool) : float :=
  if s then neg_zero else zero.

(** The integer [z], for [|z| < 2^63], as a float with sign bit [s]. *)
Definition of_magnitude (s : bool) (z : Z) : float :=
  match z with
  | Zpos m => SF2Prim (S754_finite s m 0)
  | _ => signed_zero s
  end.

(** [math.modf(d)]: the fractional and the integral part of [d], both
    carrying the sign of [d].  A finite binary64 [m * 2^e] with [e >= 0]
    is an integer; otherwise its integral part is [m] shifted right, and
    the difference is exact. *)
Definition modf (d : float) : float * float :=
  match Prim2SF d with
  | S754_nan => (d, d)
  | S754_infinity s => (signed_zero s, d)
  | S754_zero _ => (d, d)
  | S754_finite s m e =>
      if 0 <=? e then (signed_zero s, d)
      else
        let whole := of_magnitude s (Z.shiftr (Zpos m) (- e)) in
        let fraction := PrimFloat.sub d whole in
        if PrimFloat.is_zero fraction then (signed_zero s, whole)
        else (fraction, whole)
  end.

(** [n / 2^k] rounded to the nearest integer, ties to even. *)
Definition round_half_even_shift (n k : Z) : Z :=
  let q := Z.shiftr n k in
  let r := n - Z.shiftl q k in
  let half := Z.shiftl 1 (k - 1) in
  if r <? half then q
  else if half <? r then q + 1
  else if Z.even q then q else q + 1.

(** [format(x, '.3f')]: the exact value of [x] rounded to three decimals,
    ties to even, the sign kept also on a zero result. *)
Definition format_3f (x : float) : string :=
  let sign (s : bool) := if s then "-" else "" in
  match Prim2SF x with
  | S754_nan => "nan"
  | S754_infinity s => sign s ++ "inf"
  | S754_zero s => sign s ++ "0.000"
  | S754_finite s m e =>
      let thousandths :=
        if 0 <=? e then Z.shiftl (Zpos m * 1000) e
        else round_half_even_shift (Zpos m * 1000) (- e) in
      sign s ++ Str.of_Z (thousandths / 1000) ++ "."
             ++ Str.zfill 3 (Str.of_Z (thousandths mod 1000))
  end.

End PyFloat.

(** ** [time.gmtime] and [time.strftime] *)

Module Time.

Record struct_time : Type := mk_struct_time {
  tm_year : Z;
  tm_hour : Z;
  tm_min : Z;
  tm_sec : Z
}.

(** The calendar year of the day [days] after 1970-01-01 (proleptic
    Gregorian, 400-year eras of 146097 days counted from 0000-03-01). *)
Definition year_of_days (days : Z) : Z :=
  let z := days + 719468 in
  let era := z / 146097 in
  let doe := z - era * 146097 in
  let yoe := (doe - doe / 1460 + doe / 36524 - doe / 146096) / 365 in
  let doy := doe - (365 * yoe + yoe / 4 - yoe / 100) in
  let mp := (5 * doy + 2) / 153 in
  let y := yoe + era * 400 in
  if mp <? 10 then y else y + 1.

(** The float [secs] rounded towards minus infinity, as [gmtime] reads
    its argument; [None] for an infinity. *)
Definition floor_seconds (secs : float) : option Z :=
  match Prim2SF secs with
  | S754_nan | S754_infinity _ => None
  | S754_zero _ => Some 0
  | S754_finite s m e =>
      let z := if s then Zneg m else Zpos m in
      Some (if 0 <=? e then Z.shiftl z e else Z.shiftr z (- e))
  end.

(** [z] is a value of the C type [int]. *)
Definition fits_int (z : Z) : bool :=
  (- 2 ^ 31 <=? z) && (z <? 2 ^ 31).

(** [time.gmtime(secs)] on a platform with a 64-bit [time_t] and a
    32-bit [int]: a NaN is a [ValueError] and a value outside [time_t] an
    [OverflowError]; the bounds of [time_t] are compared as floats, where
    the largest [time_t] is [2^63].  A year whose distance from 1900 does
    not fit the field [tm_year] of C makes [gmtime_r] fail, which is an
    [OSError].  The [tm_year] of the result is the calendar year. *)
Definition gmtime (secs : float) : exc struct_time :=
  if PrimFloat.is_nan secs then Raise ValueError
  else
    match floor_seconds secs with
    | None => Raise OverflowError
    | Some t =>
        if negb ((- 2 ^ 63 <=? t) && (t <=? 2 ^ 63)) then Raise OverflowError
        else
          let year := year_of_days (t / 86400) in
          if negb (fits_int (year - 1900)) then Raise OSError
          else
            let s := t mod 86400 in
            Ok {| tm_year := year;
                  tm_hour := s / 3600;
                  tm_min := (s / 60) mod 60;
                  tm_sec := s mod 60 |}
    end.

Definition two_digits (z : Z) : string :=
  Str.zfill 2 (Str.of_Z z).

(** [time.strftime("%H:%M:%S,", t)]: the fields of [t] are first read
    into a C [struct tm], the year as an [int], which is an
    [OverflowError] for a year that [gmtime] could still return. *)
Definition strftime_HMS_comma (t : struct_time) : exc string :=
  if negb (fits_int (tm_year t)) then Raise OverflowError
  else
    Ok (two_digits (tm_hour t) ++ ":" ++ two_digits (tm_min t) ++ ":"
          ++ two_digits (tm_sec t) ++ ",").

End Time.

(** ** The timestamp formatters of [Caption] *)

(** [Caption.float_to_srt_time_format(d)] *)
Definition float_to_srt_time_format (d : float) : exc string :=
  let '(fraction, whole) := PyFloat.modf d in
  tm <- Time.gmtime whole ;;
  time_fmt <- Time.strftime_HMS_comma tm ;;
  let ms := Str.replace "0." "" (PyFloat.format_3f fraction) in
  Ok (time_fmt ++ ms).

(** [Caption.timestamp_to_srt_time_format(timestamp)] *)
Definition timestamp_to_srt_time_format (timestamp : float) : exc string :=
  float_to_srt_time_format (PrimFloat.div timestamp 1000%float).

(** ** XML elements, as [xml.etree.ElementTree] builds them *)

#[warnings="-register-all"]
Inductive Element : Type :=
  mkElement (tag : string) (attrib : list (string * string))
            (text : option string) (children : list Element)
            (tail : option string).

Module ET.

Definition tag (e : Element) : string :=
  let 'mkElement t _ _ _ _ := e in t.
Definition attrib (e : Element) : list (string * string) :=
  let 'mkElement _ a _ _ _ := e in a.
Definition text (e : Element) : option string :=
  let 'mkElement _ _ x _ _ := e in x.
Definition children (e : Element) : list Element :=
  let 'mkElement _ _ _ c _ := e in c.

(** [e.findall(name)] for a plain tag name: the direct children with
    that tag, in document order. *)
Definition findall (name : string) (e : Element) : list Element :=
  filter (fun c => String.eqb (tag c) name) (children e).

(** [e.find(name)]: the first of them, or [None]. *)
Definition find (name : string) (e : Element) : option Element :=
  List.find (fun c => String.eqb (tag c) name) (children e).

(** [d[key]] on the attribute dictionary. *)
Fixpoint lookup (key : string) (d : list (string * string)) : option string :=
  match d with
  | [] => None
  | (k, v) :: d' => if String.eqb k key then Some v else lookup key d'
  end.

Definition getitem (d : list (string * string)) (key : string) : exc string :=
  match lookup key d with
  | Some v => Ok v
  | None => Raise (KeyError key)
  end.

End ET.

(** ** What the module takes from the Python library *)

Class PyLib : Type := {
  (** [xml.etree.ElementTree.fromstring]: the root element, or the
      parser's exception on a text that is not well-formed. *)
  fromstring : string -> exc Element;
  (** [float(s)] on a [str]: a [ValueError] when [s] is not a number. *)
  float_of_str : string -> exc float;
  (** [html.entities.html5], the named character references. *)
  html5 : string -> option string;
  (** [html._invalid_charrefs] and [html._invalid_codepoints]. *)
  invalid_charrefs : Z -> option string;
  invalid_codepoints : Z -> bool;
  (** [sys.get_int_max_str_digits()]: the most digits that [int] reads
      from a decimal numeral, 4300 unless the interpreter is told
      otherwise, and [0] when there is no limit. *)
  int_max_str_digits : nat
}.

(** ** UTF-8 *)

Module Utf8.

Definition byte (z : Z) : ascii := ascii_of_N (Z.to_N (z mod 256)).

(** A byte [10xxxxxx]: not the first byte of a character. *)
Definition continuation (c : ascii) : bool :=
  let n := Z.of_N (N_of_ascii c) in (128 <=? n) && (n <? 192).

(** [chr(cp)] for [0 <= cp <= 0x10FFFF]. *)
Definition chr (cp : Z) : string :=
  let cont (z : Z) := byte (128 + z mod 64) in
  if cp <? 128 then String (byte cp) ""
  else if cp <? 2048 then
    String (byte (192 + cp / 64)) (String (cont cp) "")
  else if cp <? 65536 then
    String (byte (224 + cp / 4096))
      (String (cont (cp / 64)) (String (cont cp) ""))
  else
    String (byte (240 + cp / 262144))
      (String (cont (cp / 4096))
         (String (cont (cp / 64)) (String (cont cp) ""))).

(** [len(s)] *)
Fixpoint len (s : string) : nat :=
  match s with
  | EmptyString => O
  | String c s' => if continuation c then len s' else S (len s')
  end.

(** [s[:x]] and [s[x:]] cut together: the first [x] characters of [s]
    and the rest.  [inside] tells that the bytes at the head of [s]
    continue a character already taken. *)
Fixpoint split_at (x : nat) (inside : bool) (s : string) : string * string :=
  match s with
  | EmptyString => (EmptyString, EmptyString)
  | String c s' =>
      if inside && continuation c then
        let '(a, b) := split_at x true s' in (String c a, b)
      else
        match x with
        | O => (EmptyString, s)
        | S x' => let '(a, b) := split_at x' true s' in (String c a, b)
        end
  end.

End Utf8.

(** ** [html.unescape] *)

Module Html.
Section Unescape.
Context {lib : PyLib}.

Definition code (c : ascii) : Z := Z.of_N (N_of_ascii c).

Definition is_digit (c : ascii) : bool :=
  (48 <=? code c) && (code c <=? 57).

Definition is_hexdigit (c : ascii) : bool :=
  is_digit c
  || (97 <=? code c) && (code c <=? 102)
  || (65 <=? code c) && (code c <=? 70).

Definition digit_value (c : ascii) : Z :=
  if is_digit c then code c - 48
  else if 97 <=? code c then code c - 87
  else code c - 55.

(** The class [[^\t\n\f <&#;]] of the characters of a name. *)
Definition name_char (c : ascii) : bool :=
  negb (existsb (Z.eqb (code c)) [9; 10; 12; 32; 60; 38; 35; 59]).

(** The longest prefix whose characters satisfy [p], and the rest. *)
Fixpoint span (p : ascii -> bool) (s : string) : string * string :=
  match s with
  | EmptyString => (EmptyString, EmptyString)
  | String c s' =>
      if p c then let '(a, b) := span p s' in (String c a, b)
      else (EmptyString, s)
  end.

(** [[^\t\n\f <&#;]{1,32}], greedy: at most [budget] characters. *)
Fixpoint span_name (budget : nat) (inside : bool) (s : string) : string * string :=
  match s with
  | EmptyString => (EmptyString, EmptyString)
  | String c s' =>
      if inside && Utf8.continuation c then
        let '(a, b) := span_name budget true s' in (String c a, b)
      else if name_char c then
        match budget with
        | O => (EmptyString, s)
        | S k => let '(a, b) := span_name k true s' in (String c a, b)
        end
      else (EmptyString, s)
  end.

(** [;?] *)
Definition with_semicolon (g : string) (s : string) : string :=
  match s with
  | String c _ => if Ascii.eqb c ";" then g ++ ";" else g
  | EmptyString => g
  end.

(** [#[0-9]+;?|#[xX][0-9a-fA-F]+;?] at the text [s1] that follows [&#]. *)
Definition match_numeric (s1 : string) : option string :=
  let '(ds, r) := span is_digit s1 in
  match ds with
  | String _ _ => Some (with_semicolon (String "#" ds) r)
  | EmptyString =>
      match s1 with
      | String x s2 =>
          if Ascii.eqb x "x" || Ascii.eqb x "X" then
            let '(hs, r2) := span is_hexdigit s2 in
            match hs with
            | String _ _ => Some (with_semicolon (String "#" (String x hs)) r2)
            | EmptyString => None
            end
          else None
      | EmptyString => None
      end
  end.

(** [[^\t\n\f <&#;]{1,32};?] *)
Definition match_name (s : string) : option string :=
  let '(nm, r) := span_name 32 false s in
  match nm with
  | String _ _ => Some (with_semicolon nm r)
  | EmptyString => None
  end.

(** The group of [_charref] matched at the text [s] that follows an
    ampersand.  A name does not start with [#], so the alternatives of
    the pattern are told apart by the first character. *)
Definition match_charref (s : string) : option string :=
  match s with
  | String c s1 => if Ascii.eqb c "#" then match_numeric s1 else match_name s
  | EmptyString => None
  end.

(** The value of the digits at the head of [s] in a base, which the
    pattern has checked to be digits of that base. *)
Fixpoint int_of (base acc : Z) (s : string) : Z :=
  match s with
  | EmptyString => acc
  | String c s' =>
      if is_hexdigit c then int_of base (acc * base + digit_value c) s'
      else acc
  end.

(** [int(s.rstrip(';'), 16)] *)
Definition int_hexadecimal (s : string) : Z := int_of 16 0 s.

(** [int(s.rstrip(';'))]: a decimal numeral of more than 640 digits and
    of more digits than the limit of the interpreter is a [ValueError];
    every digit counts, the zeros in front too. *)
Definition int_decimal (s : string) : exc Z :=
  let digits := String.length (fst (span is_digit s)) in
  if ((640 <? digits) && (0 <? int_max_str_digits)
      && (int_max_str_digits <? digits))%nat
  then Raise ValueError
  else Ok (int_of 10 0 s).

(** The numeric branch of [_replace_charref]. *)
Definition numeric_charref (num : Z) : string :=
  match invalid_charrefs num with
  | Some r => r
  | None =>
      if (55296 <=? num) && (num <=? 57343) || (1114111 <? num)
      then Utf8.chr 65533
      else if invalid_codepoints num then EmptyString
      else Utf8.chr num
  end.

(** [for x in range(len(s)-1, 1, -1): if s[:x] in html5: ...], entered
    with [x = len(s) - 1]. *)
Fixpoint longest_name (x : nat) (s : string) : option string :=
  match x with
  | O => None
  | S x' =>
      if (2 <=? x)%nat then
        let '(a, b) := Utf8.split_at x false s in
        match html5 a with
        | Some r => Some (r ++ b)
        | None => longest_name x' s
        end
      else None
  end.

(** The named branch of [_replace_charref]. *)
Definition named_charref (s : string) : string :=
  match html5 s with
  | Some r => r
  | None =>
      match longest_name (Nat.pred (Utf8.len s)) s with
      | Some r => r
      | None => String "&" s
      end
  end.

(** [_replace_charref], on the group [s].  A group that starts with [#]
    has a digit or an [x] after it.  The conversion of a decimal numeral
    is the one step that can raise. *)
Definition replace_charref (s : string) : exc string :=
  match s with
  | String c (String x s2) =>
      if Ascii.eqb c "#" then
        if Ascii.eqb x "x" || Ascii.eqb x "X"
        then Ok (numeric_charref (int_hexadecimal s2))
        else (num <- int_decimal (String x s2) ;; Ok (numeric_charref num))
      else Ok (named_charref s)
  | _ => Ok (named_charref s)
  end.

(** [_charref.sub(_replace_charref, s)]: the matches are taken from the
    left, and the first replacement that raises ends the substitution.
    [skip] counts the bytes of the match in progress. *)
Fixpoint sub_charref (skip : nat) (s : string) : exc string :=
  match s with
  | EmptyString => Ok EmptyString
  | String c s' =>
      match skip with
      | S k => sub_charref k s'
      | O =>
          if Ascii.eqb c "&" then
            match match_charref s' with
            | Some g =>
                r <- replace_charref g ;;
                rest <- sub_charref (String.length g) s' ;;
                Ok (r ++ rest)
            | None => rest <- sub_charref O s' ;; Ok (String c rest)
            end
          else rest <- sub_charref O s' ;; Ok (String c rest)
      end
  end.

(** [html.unescape(s)] *)
Definition unescape (s : string) : exc string :=
  if negb (Str.contains "&" s) then Ok s else sub_charref O s.

End Unescape.
End Html.

(** ** Statements with effects

    The two generators keep a list [segments] that survives an exception
    raised inside their [try] block, and print the traceback of what they
    catch.  A block is a function from the state before it to the state
    after it and either its value or the exception that ended it. *)

Definition block (S A : Type) : Type := S -> S * exc A.

(** [for x in xs: body(x)] *)
Fixpoint for_each {S X : Type} (body : X -> block S unit) (xs : list X) : block S unit :=
  fun st =>
    match xs with
    | [] => (st, Ok tt)
    | x :: xs' =>
        match body x st with
        | (st', Ok _) => for_each body xs' st'
        | (st', Raise e) => (st', Raise e)
        end
    end.

(** What a call leaves behind: the tracebacks printed on the standard
    error stream, and the value returned or the exception raised. *)
Record outcome (A : Type) : Type := mk_outcome {
  stderr : list exn;
  result : exc A
}.
Arguments mk_outcome {A} _ _.
Arguments stderr {A} _.
Arguments result {A} _.

(** [try: body  except: traceback.print_exc()] followed by
    [return finish(segments)]. *)
Definition try_print_then {S A : Type} (body : block S unit) (init : S)
    (finish : S -> A) : outcome A :=
  match body init with
  | (st, Ok _) => mk_outcome [] (Ok (finish st))
  | (st, Raise e) => mk_outcome [e] (Ok (finish st))
  end.

(** ** Caption tracks *)

Definition LF : string := String "010" EmptyString.
Definition QUOTE : string := String "034" EmptyString.

(** A caption-track descriptor, the JSON object [Caption.__init__]
    receives.  A field is [None] when the key is absent; a value that is
    present has the type the player response gives it: the [name] is a
    mapping, its [runs] a list of mappings, and the texts and the [vssId]
    are strings. *)
Record Run : Type := mk_run {
  run_text : option string
}.

Record NameDict : Type := mk_name {
  simpleText : option string;
  runs : option (list Run)
}.

Record CaptionTrack : Type := mk_track {
  baseUrl : option string;
  track_name : option NameDict;
  vssId : option string
}.

(** A [Caption] object.  [url] is [None] when [caption_track.get] found no
    [baseUrl]; [name] is [None] when the attribute was never assigned. *)
Record Caption : Type := mk_caption {
  url : option string;
  name : option string;
  code : string
}.

Definition getitem {A : Type} (key : string) (field : option A) : exc A :=
  match field with
  | Some v => Ok v
  | None => Raise (KeyError key)
  end.

(** The loop [for el in name_dict['runs']: if 'text' in el: self.name =
    el['text']], on the attribute [name] as it stands before the loop. *)
Definition assign_run_texts (els : list Run) (name0 : option string) : option string :=
  fold_left
    (fun nm el =>
       match run_text el with
       | Some t => Some t
       | None => nm
       end)
    els name0.

(** [Caption.__init__(self, caption_track)] *)
Definition Caption_init (caption_track : CaptionTrack) : exc Caption :=
  let url := baseUrl caption_track in
  name_dict <- getitem "name" (track_name caption_track) ;;
  name <- match simpleText name_dict with
          | Some t => Ok (Some t)
          | None =>
              els <- getitem "runs" (runs name_dict) ;;
              Ok (assign_run_texts els None)
          end ;;
  code <- getitem "vssId" (vssId caption_track) ;;
  let code := Str.strip_char "." code in
  Ok {| url := url; name := name; code := code |}.

(** [Caption.__repr__(self)] *)
Definition Caption_repr (self : Caption) : exc string :=
  match name self with
  | None => Raise (AttributeError "name")
  | Some nm =>
      Ok ("<Caption lang=" ++ QUOTE ++ nm ++ QUOTE
            ++ " code=" ++ QUOTE ++ code self ++ QUOTE ++ ">")
  end.

(** ** The generators *)

Section Generators.
Context {lib : PyLib}.

(** [reduce(lambda acc, s: acc + (s.text or ""), p.findall('s'), "")] *)
Definition paragraph_text (p : Element) : string :=
  fold_left
    (fun acc s =>
       acc ++ match ET.text s with
              | Some t => t
              | None => EmptyString
              end)
    (ET.findall "s" p) EmptyString.

(** [unescape(text.replace("\n", " ").replace("  ", " "))] *)
Definition normalize (text : string) : exc string :=
  Html.unescape (Str.replace "  " " " (Str.replace LF " " text)).

(** [root.find('body')], with the [AssertionError] raised on [None]. *)
Definition find_body {S : Type} (root : Element) : block S Element :=
  fun st =>
    match ET.find "body" root with
    | None => (st, Raise (AssertionError "XML caption doesn't have a <body> tag"))
    | Some child => (st, Ok child)
    end.

(** The body of the loop of [xml_caption_to_transcript]. *)
Definition transcript_step (p : Element) : block (list string) unit :=
  fun segments =>
    let text := paragraph_text p in
    match normalize text with
    | Raise e => (segments, Raise e)
    | Ok caption =>
        if negb (String.eqb caption EmptyString)
        then ((segments ++ [caption])%list, Ok tt)
        else (segments, Ok tt)
    end.

(** The [try] block of [xml_caption_to_transcript]. *)
Definition transcript_block (root : Element) : block (list string) unit :=
  fun segments =>
    match find_body root segments with
    | (segments, Raise e) => (segments, Raise e)
    | (segments, Ok child) =>
        for_each transcript_step (ET.findall "p" child) segments
    end.

(** [Caption.xml_caption_to_transcript(self, xml_captions)] *)
Definition xml_caption_to_transcript (xml_captions : string) : outcome string :=
  match fromstring xml_captions with
  | Raise e => mk_outcome [] (Raise e)
  | Ok root =>
      try_print_then (transcript_block root) []
        (fun segments => Str.strip (Str.join " " segments))
  end.

(** The nested function [append_segment]. *)
Definition append_segment (caption : string) (start end_ : float)
    (sequence_number : nat) : block (list string) unit :=
  fun segments =>
    match
      (s <- timestamp_to_srt_time_format start ;;
       e <- timestamp_to_srt_time_format end_ ;;
       Ok (Str.of_nat sequence_number ++ LF ++ s ++ " --> " ++ e ++ LF
             ++ caption ++ LF))
    with
    | Ok line => ((segments ++ [line])%list, Ok tt)
    | Raise e => (segments, Raise e)
    end.

(** [float(p.attrib[key])] *)
Definition float_attrib (p : Element) (key : string) : exc float :=
  v <- ET.getitem (ET.attrib p) key ;;
  float_of_str v.

(** [ps[i]] *)
Definition item (ps : list Element) (i : nat) : exc Element :=
  match nth_error ps i with
  | Some p => Ok p
  | None => Raise IndexError
  end.

(** The body of the loop of [xml_caption_to_srt], at index [i]. *)
Definition srt_step (ps : list Element) (i : nat) : block (list string) unit :=
  fun segments =>
    match
      (p <- item ps i ;;
       start <- float_attrib p "t" ;;
       let text := paragraph_text p in
       caption <- normalize text ;;
       end_ <- (if (i + 1 <? List.length ps)%nat
                then (q <- item ps (i + 1) ;; float_attrib q "t")
                else float_attrib p "d") ;;
       Ok (caption, start, end_))
    with
    | Raise e => (segments, Raise e)
    | Ok (caption, start, end_) =>
        append_segment caption start end_ (i + 1) segments
    end.

(** The [try] block of [xml_caption_to_srt]. *)
Definition srt_block (root : Element) : block (list string) unit :=
  fun segments =>
    match find_body root segments with
    | (segments, Raise e) => (segments, Raise e)
    | (segments, Ok child) =>
        let ps := ET.findall "p" child in
        for_each (srt_step ps) (seq 0 (List.length ps)) segments
    end.

(** [Caption.xml_caption_to_srt(self, xml_captions)] *)
Definition xml_caption_to_srt (xml_captions : string) : outcome string :=
  match fromstring xml_captions with
  | Raise e => mk_outcome [] (Raise e)
  | Ok root =>
      try_print_then (srt_block root) []
        (fun segments => Str.strip (Str.join LF segments))
  end.

End Generators.

(** ** A reference library

    An instance of [PyLib] to run the generators on concrete documents:
    a parser for XML without a document type declaration, [float] on
    ASCII numerals, and the entity tables of [html] with [html5] cut down
    to the references XML itself predefines and a few more. *)

Module Reference.

(** *** Decimal numerals to binary64 *)

(** The binary64 nearest to [num / den], ties to even, as a mantissa
    and an exponent. *)
Definition nearest_binary64 (num den : Z) : Z * Z :=
  let scaled (e : Z) : Z * Z :=
    if 0 <=? e then (num, den * 2 ^ e) else (num * 2 ^ (- e), den) in
  let quotient (e : Z) : Z := let '(n, d) := scaled e in n / d in
  let e1 := Z.max (Z.log2 num - Z.log2 den - 53) (- 1074) in
  let e := if quotient e1 <? 2 ^ 53 then e1 else e1 + 1 in
  let '(n, d) := scaled e in
  let q := n / d in
  let r := n mod d in
  let m := if 2 * r <? d then q
           else if d <? 2 * r then q + 1
           else if Z.even q then q else q + 1 in
  (m, e).

Definition float_of_ratio (negative : bool) (num den : Z) : float :=
  match num with
  | Zpos _ =>
      match nearest_binary64 num den with
      | (Zpos m, e) => SF2Prim (S754_finite negative m e)
      | _ => PyFloat.signed_zero negative
      end
  | _ => PyFloat.signed_zero negative
  end.

Definition lower (c : ascii) : ascii :=
  let n := Html.code c in
  if (65 <=? n) && (n <=? 90) then Utf8.byte (n + 32) else c.

Fixpoint lowercase (s : string) : string :=
  match s with
  | EmptyString => EmptyString
  | String c s' => String (lower c) (lowercase s')
  end.

(** [digit (["_"] digit)*]: the digits read, without the underscores,
    and the rest; [None] when an underscore is not between digits. *)
Fixpoint digitpart (after_digit : bool) (s : string) : option (string * string) :=
  match s with
  | String c s' =>
      if Html.is_digit c then
        match digitpart true s' with
        | Some (ds, r) => Some (String c ds, r)
        | None => None
        end
      else if Ascii.eqb c "_" && after_digit then
        match s' with
        | String c' _ =>
            if Html.is_digit c' then digitpart false s' else None
        | EmptyString => None
        end
      else Some (EmptyString, s)
  | EmptyString => Some (EmptyString, EmptyString)
  end.

Definition sign_of (s : string) : bool * string :=
  match s with
  | String "-" r => (true, r)
  | String "+" r => (false, r)
  | _ => (false, s)
  end.

(** [[digitpart] "." digitpart | digitpart ["."]], then an optional
    exponent, then nothing. *)
Definition decimal (negative : bool) (s : string) : option float :=
  match digitpart false s with
  | None => None
  | Some (ip, r) =>
      let fraction :=
        match r with
        | String "." r1 =>
            match digitpart false r1 with
            | Some (fp, r2) => Some (fp, r2)
            | None => None
            end
        | _ => Some (EmptyString, r)
        end in
      match fraction with
      | None => None
      | Some (fp, r2) =>
          if (String.length ip + String.length fp =? 0)%nat then None
          else
            let exponent :=
              match r2 with
              | EmptyString => Some 0
              | String c r3 =>
                  if Ascii.eqb (lower c) "e" then
                    let '(neg, r4) := sign_of r3 in
                    match digitpart false r4 with
                    | Some (String d ds, EmptyString) =>
                        let x := Html.int_of 10 0 (String d ds) in
                        Some (if neg then - x else x)
                    | _ => None
                    end
                  else None
              end in
            match exponent with
            | None => None
            | Some x =>
                let digits := Html.int_of 10 0 (ip ++ fp) in
                let scale := x - Z.of_nat (String.length fp) in
                Some (if 0 <=? scale
                      then float_of_ratio negative (digits * 10 ^ scale) 1
                      else float_of_ratio negative digits (10 ^ (- scale)))
            end
      end
  end.

(** [float(s)] for an ASCII [s]. *)
Definition float_of_str (s : string) : exc float :=
  let '(negative, body) := sign_of (Str.strip s) in
  let word := lowercase body in
  if String.eqb word "inf" || String.eqb word "infinity" then
    Ok (if negative then neg_infinity else infinity)
  else if String.eqb word "nan" then Ok nan
  else
    match decimal negative body with
    | Some f => Ok f
    | None => Raise ValueError
    end.

(** *** The tables of [html] *)

Definition invalid_charrefs (num : Z) : option string :=
  let cp1252 : list Z :=
    [8364; 129; 8218; 402; 8222; 8230; 8224; 8225; 710; 8240; 352; 8249;
     338; 141; 381; 143; 144; 8216; 8217; 8220; 8221; 8226; 8211; 8212;
     732; 8482; 353; 8250; 339; 157; 382; 376] in
  if num =? 0 then Some (Utf8.chr 65533)
  else if num =? 13 then Some (Utf8.chr 13)
  else if (128 <=? num) && (num <=? 159) then
    option_map Utf8.chr (nth_error cp1252 (Z.to_nat (num - 128)))
  else None.

Definition invalid_codepoints (num : Z) : bool :=
  (1 <=? num) && (num <=? 8)
  || (14 <=? num) && (num <=? 31)
  || (127 <=? num) && (num <=? 159)
  || (64976 <=? num) && (num <=? 65007)
  || (num =? 11)
  || (num <=? 1114111) && (65534 <=? num mod 65536).

Definition html5 (key : string) : option string :=
  let table : list (string * Z) :=
    [("amp", 38); ("amp;", 38); ("lt", 60); ("lt;", 60); ("gt", 62);
     ("gt;", 62); ("quot", 34); ("quot;", 34); ("apos;", 39);
     ("nbsp", 160); ("nbsp;", 160); ("not", 172); ("not;", 172);
     ("copy", 169); ("copy;", 169); ("hellip;", 8230)] in
  option_map (fun '(_, cp) => Utf8.chr cp)
    (List.find (fun '(k, _) => String.eqb k key) table).

(** *** The XML parser: events, then the tree *)

Inductive event : Type :=
| Start (tag : string) (attrib : list (string * string))
| End_ (tag : string)
| Data (text : string).

Fixpoint drop (n : nat) (s : string) : string :=
  match n, s with
  | S n', String _ s' => drop n' s'
  | _, _ => s
  end.

(** The text before the first occurrence of [pat] and the text after it. *)
Fixpoint split_on (pat s : string) : option (string * string) :=
  if String.prefix pat s then Some (EmptyString, drop (String.length pat) s)
  else
    match s with
    | EmptyString => None
    | String c s' =>
        match split_on pat s' with
        | Some (a, b) => Some (String c a, b)
        | None => None
        end
    end.

Definition xml_space (c : ascii) : bool :=
  existsb (Z.eqb (Html.code c)) [32; 9; 10; 13].

Definition name_start (c : ascii) : bool :=
  let n := Html.code c in
  (97 <=? n) && (n <=? 122) || (65 <=? n) && (n <=? 90)
  || (n =? 95) || (n =? 58) || (128 <=? n).

Definition name_part (c : ascii) : bool :=
  name_start c || Html.is_digit c || (Html.code c =? 45) || (Html.code c =? 46).

Definition skip_space (s : string) : string :=
  snd (Html.span xml_space s).

(** A name at the head of [s], and the rest. *)
Definition xml_name (s : string) : exc (string * string) :=
  match s with
  | String c _ =>
      if name_start c then Ok (Html.span name_part s) else Raise ParseError
  | EmptyString => Raise ParseError
  end.

(** [&name;] and [&#n;]: the five predefined entities and the
    character references. *)
Definition reference (nm : string) : exc string :=
  match nm with
  | "amp" => Ok "&"
  | "lt" => Ok "<"
  | "gt" => Ok ">"
  | "quot" => Ok QUOTE
  | "apos" => Ok "'"
  | String "#" (String "x" hs) =>
      let '(ds, r) := Html.span Html.is_hexdigit hs in
      let cp := Html.int_of 16 0 ds in
      if (0 <? String.length ds)%nat && String.eqb r "" && (0 <? cp) && (cp <=? 1114111)
      then Ok (Utf8.chr cp) else Raise ParseError
  | String "#" ns =>
      let '(ds, r) := Html.span Html.is_digit ns in
      let cp := Html.int_of 10 0 ds in
      if (0 <? String.length ds)%nat && String.eqb r "" && (0 <? cp) && (cp <=? 1114111)
      then Ok (Utf8.chr cp) else Raise ParseError
  | _ => Raise ParseError
  end.

(** Character data or an attribute value with its references replaced;
    a [<] is not allowed in it. *)
Fixpoint decode (skip : nat) (s : string) : exc string :=
  match s with
  | EmptyString => Ok EmptyString
  | String c s' =>
      match skip with
      | S k => decode k s'
      | O =>
          if Ascii.eqb c "&" then
            match split_on ";" s' with
            | Some (nm, _) =>
                r <- reference nm ;;
                rest <- decode (S (String.length nm)) s' ;;
                Ok (r ++ rest)
            | None => Raise ParseError
            end
          else if Ascii.eqb c "<" then Raise ParseError
          else rest <- decode O s' ;; Ok (String c rest)
      end
  end.

(** The attributes of a start tag, up to its [>] or [/>]; the flag
    tells an empty-element tag. *)
Fixpoint attributes (fuel : nat) (seen : list (string * string)) (s : string)
    : exc (list (string * string) * bool * string) :=
  match fuel with
  | O => Raise ParseError
  | S fuel' =>
      let s0 := skip_space s in
      match s0 with
      | String ">" r => Ok (seen, false, r)
      | String "/" (String ">" r) => Ok (seen, true, r)
      | _ =>
          if (String.length s0 =? String.length s)%nat then Raise ParseError
          else
            '(k, r1) <- xml_name s0 ;;
            match skip_space r1 with
            | String "=" r2 =>
                match skip_space r2 with
                | String q r3 =>
                    if Ascii.eqb q "034" || Ascii.eqb q "'" then
                      match split_on (String q EmptyString) r3 with
                      | Some (raw, r4) =>
                          v <- decode O raw ;;
                          match ET.lookup k seen with
                          | Some _ => Raise ParseError
                          | None => attributes fuel' (seen ++ [(k, v)])%list r4
                          end
                      | None => Raise ParseError
                      end
                    else Raise ParseError
                | EmptyString => Raise ParseError
                end
            | _ => Raise ParseError
            end
      end
  end.

(** The events of a document, in order. *)
Fixpoint events (fuel : nat) (s : string) : exc (list event) :=
  match fuel with
  | O => Raise ParseError
  | S fuel' =>
      match s with
      | EmptyString => Ok []
      | String "<" s1 =>
          if String.prefix "!--" s1 then
            match split_on "-->" (drop 3 s1) with
            | Some (_, r) => events fuel' r
            | None => Raise ParseError
            end
          else if String.prefix "![CDATA[" s1 then
            match split_on "]]>" (drop 8 s1) with
            | Some (raw, r) => es <- events fuel' r ;; Ok (Data raw :: es)
            | None => Raise ParseError
            end
          else if String.prefix "?" s1 then
            match split_on "?>" (drop 1 s1) with
            | Some (_, r) => events fuel' r
            | None => Raise ParseError
            end
          else if String.prefix "/" s1 then
            '(nm, r1) <- xml_name (drop 1 s1) ;;
            match skip_space r1 with
            | String ">" r => es <- events fuel' r ;; Ok (End_ nm :: es)
            | _ => Raise ParseError
            end
          else
            '(nm, r1) <- xml_name s1 ;;
            '(attrs, empty, r) <- attributes (S (String.length r1)) [] r1 ;;
            es <- events fuel' r ;;
            Ok (if empty : bool then Start nm attrs :: End_ nm :: es
                else Start nm attrs :: es)
      | _ =>
          let '(raw, r) :=
            match split_on "<" s with
            | Some (a, b) => (a, String "<" b)
            | None => (s, EmptyString)
            end in
          text <- decode O raw ;;
          es <- events fuel' r ;;
          Ok (Data text :: es)
      end
  end.

(** An element under construction: its tag, attributes, text so far and
    finished children, last child first. *)
Definition frame : Type :=
  string * list (string * string) * option string * list Element.

Definition add_data (d : string) (o : option string) : option string :=
  match o with
  | Some t => Some (t ++ d)
  | None => Some d
  end.

Definition all_space (d : string) : bool :=
  String.eqb (skip_space d) "".

(** The tree builder: [stack] holds the open elements, innermost first,
    and [root] the document element once it is closed. *)
Fixpoint build (es : list event) (stack : list frame) (root : option Element)
    : exc Element :=
  match es with
  | [] =>
      match stack, root with
      | [], Some e => Ok e
      | _, _ => Raise ParseError
      end
  | Start tg attrs :: es' =>
      match stack, root with
      | [], Some _ => Raise ParseError
      | _, _ => build es' ((tg, attrs, None, []) :: stack) root
      end
  | Data d :: es' =>
      match stack with
      | [] => if all_space d then build es' stack root else Raise ParseError
      | (tg, attrs, txt, []) :: up =>
          build es' ((tg, attrs, add_data d txt, []) :: up) root
      | (tg, attrs, txt, mkElement ct ca cx cc ctail :: kids) :: up =>
          build es'
            ((tg, attrs, txt, mkElement ct ca cx cc (add_data d ctail) :: kids) :: up)
            root
      end
  | End_ nm :: es' =>
      match stack with
      | [] => Raise ParseError
      | (tg, attrs, txt, kids) :: up =>
          if negb (String.eqb tg nm) then Raise ParseError
          else
            let e := mkElement tg attrs txt (List.rev kids) None in
            match up with
            | [] => build es' [] (Some e)
            | (ptg, pattrs, ptxt, pkids) :: up' =>
                build es' ((ptg, pattrs, ptxt, e :: pkids) :: up') root
            end
      end
  end.

(** [xml.etree.ElementTree.fromstring(text)] *)
Definition fromstring (text : string) : exc Element :=
  es <- events (S (String.length text)) text ;;
  build es [] None.

End Reference.

#[export] Instance reference_lib : PyLib := {|
  fromstring := Reference.fromstring;
  float_of_str := Reference.float_of_str;
  html5 := Reference.html5;
  invalid_charrefs := Reference.invalid_charrefs;
  invalid_codepoints := Reference.invalid_codepoints;
  int_max_str_digits := 4300
|}.

(** ** Writing the captions to a file

    [Caption.download] and the two methods it calls to fetch and convert
    the track.  What they take from outside the module is a field of the
    class [Env]: the fetch of [pytube.request], the two helpers of
    [pytube.helpers], and whether the operating system lets a path be
    opened for writing.  Paths are POSIX paths. *)

Class Env : Type := {
  (** [pytube.request.get(url)], on the [url] of the caption, which is
      [None] when the descriptor had no [baseUrl]. *)
  request_get : option string -> exc string;
  (** [pytube.helpers.safe_filename(s)] *)
  safe_filename : string -> string;
  (** [pytube.helpers.target_directory(output_path)] *)
  target_directory : option string -> exc string;
  (** [open(path, "w")] succeeds. *)
  writable : string -> bool
}.

(** The files of the disk, read through their paths: the content found
    at each path string that names a file.  Two strings that the
    operating system resolves to one file (through a link, or a
    different spelling of the directory) are two arguments here, so the
    statements below only speak of the path that [download] builds. *)
Definition files : Type := string -> option string.

(** The file at [path] holds [content]; the others are as in [fs]. *)
Definition write_file (path content : string) (fs : files) : files :=
  fun q => if String.eqb q path then Some content else fs q.

(** [s.split(sep)] for a one-character [sep]. *)
Fixpoint split_char (sep : ascii) (s : string) : list string :=
  match s with
  | EmptyString => [EmptyString]
  | String c s' =>
      if Ascii.eqb c sep then EmptyString :: split_char sep s'
      else
        match split_char sep s' with
        | h :: t => String c h :: t
        | [] => [String c EmptyString]
        end
  end.

(** [s.endswith(suffix)] *)
Definition endswith (suffix s : string) : bool :=
  String.prefix (Str.rev suffix) (Str.rev s).

(** [os.path.join(a, b)] *)
Definition path_join (a b : string) : string :=
  if String.prefix "/" b then b
  else if String.eqb a "" || endswith "/" a then a ++ b
  else a ++ "/" ++ b.

Section Download.
Context {lib : PyLib} {env : Env}.

(** The property [Caption.xml_captions] *)
Definition xml_captions (self : Caption) : exc string :=
  request_get (url self).

(** [Caption.generate_srt_captions(self)] *)
Definition generate_srt_captions (self : Caption) : outcome string :=
  match xml_captions self with
  | Raise e => mk_outcome [] (Raise e)
  | Ok xml => xml_caption_to_srt xml
  end.

(** [Caption.generate_transcript(self)] *)
Definition generate_transcript (self : Caption) : outcome string :=
  match xml_captions self with
  | Raise e => mk_outcome [] (Raise e)
  | Ok xml => xml_caption_to_transcript xml
  end.

(** The first statement of [download]: the title without its [.srt] or
    [.xml]. *)
Definition title_stem (title : string) : string :=
  if endswith ".srt" title || endswith ".xml" title
  then Str.join "." (removelast (split_char "." title))
  else title.

(** [format == name], where [format] may be [None]. *)
Definition format_is (format : option string) (name : string) : bool :=
  match format with
  | Some f => String.eqb f name
  | None => false
  end.

(** The extension that [download] gives the file for a [format]. *)
Definition extension (format : option string) : string :=
  if format_is format "srt" then ".srt"
  else if format_is format "xml" then ".xml"
  else ".txt".

(** The name of the file, as [download] builds it before it joins it to
    the directory. *)
Definition download_filename (self : Caption) (title : string)
    (format filename_prefix : option string) : string :=
  let filename := title_stem title in
  let filename :=
    match filename_prefix with
    | Some (String c pre) => safe_filename (String c pre) ++ filename
    | _ => filename
    end in
  let filename := safe_filename filename in
  let filename := filename ++ " (" ++ code self ++ ")" in
  filename ++ extension format.

(** What [download] writes for a [format]. *)
Definition download_content (self : Caption) (format : option string) : outcome string :=
  if format_is format "srt" then generate_srt_captions self
  else if format_is format "xml" then mk_outcome [] (xml_captions self)
  else generate_transcript self.

(** [Caption.download(self, title, srt, format, output_path,
    filename_prefix)], on the files [fs].  The file is opened, and so
    emptied, before its content is computed. *)
Definition download (self : Caption) (title : string) (srt : bool)
    (format output_path filename_prefix : option string) (fs : files)
    : files * outcome string :=
  let filename := download_filename self title format filename_prefix in
  match target_directory output_path with
  | Raise e => (fs, mk_outcome [] (Raise e))
  | Ok dir =>
      let file_path := path_join dir filename in
      if negb (writable file_path) then (fs, mk_outcome [] (Raise OSError))
      else
        let opened := write_file file_path "" fs in
        let content := download_content self format in
        match result content with
        | Raise e => (opened, mk_outcome (stderr content) (Raise e))
        | Ok text =>
            (write_file file_path text opened,
             mk_outcome (stderr content) (Ok file_path))
        end
  end.

End Download.

(** An environment to run [download] in: the address [url1] answers with
    [document] and no other address answers, file names are left as they
    are, the directory is the one asked for, or [/target], and every path
    can be written but those under [/readonly]. *)
Definition reference_env (document : string) : Env := {|
  request_get := fun address =>
    match address with
    | Some "url1" => Ok document
    | _ => Raise OSError
    end;
  safe_filename := fun s => s;
  target_directory := fun output_path =>
    match output_path with
    | Some dir => Ok dir
    | None => Ok "/target"
    end;
  writable := fun path => negb (String.prefix "/readonly" path)
|}.

(** ** More notions used in the statements *)

(** [n] spaces. *)
Fixpoint spaces (n : nat) : string :=
  match n with
  | O => EmptyString
  | S n' => String " " (spaces n')
  end.

(** [s] starts with a whitespace character: one ASCII byte, or the two
    or three bytes of one of the others. *)
Definition space_at_head (s : string) : bool :=
  match s with
  | EmptyString => false
  | String b1 s1 =>
      Str.ascii_space b1
      || match s1 with
         | EmptyString => false
         | String b2 s2 =>
             Str.space2 b1 b2
             || match s2 with
                | EmptyString => false
                | String b3 _ => Str.space3 b1 b2 b3
                end
         end
  end.

(** The same on a reversed string. *)
Definition space_at_head_rev (s : string) : bool :=
  match s with
  | EmptyString => false
  | String b1 s1 =>
      Str.ascii_space b1
      || match s1 with
         | EmptyString => false
         | String b2 s2 =>
             Str.space2 b2 b1
             || match s2 with
                | EmptyString => false
                | String b3 _ => Str.space3 b3 b2 b1
                end
         end
  end.

(** [s] ends with a whitespace character. *)
Definition space_at_tail (s : string) : bool :=
  space_at_head_rev (Str.rev s).

(** A string that has been stripped. *)
Definition trimmed (s : string) : Prop :=
  space_at_head s = false /\ space_at_tail s = false.

(** The character [c] occurs in [s]. *)
Fixpoint has_char (c : ascii) (s : string) : bool :=
  match s with
  | EmptyString => false
  | String x s' => Ascii.eqb x c || has_char c s'
  end.

(** The caption of the tests, with the address that [reference_env]
    answers, and one without an address. *)
Definition caption1 : Caption :=
  {| url := Some "url1"; name := Some "name1"; code := "en" |}.

Definition caption_without_url : Caption :=
  {| url := None; name := Some "name1"; code := "en" |}.

(** A disk without files, and one with a file at the path that the
    tests write. *)
Definition no_files : files := fun _ => None.

Definition old_file : files :=
  write_file "/target/title (en).srt" "an earlier download" no_files.

(** ** Notions used in the statements *)

(** A cue block of the SubRip text: the sequence number, the two
    timestamps and the text, each on a line of its own. *)
Definition cue_block (number : nat) (start_s end_s text : string) : string :=
  Str.of_nat number ++ LF ++ start_s ++ " --> " ++ end_s ++ LF ++ text ++ LF.

Section References.
Context {lib : PyLib}.

(** The non-empty prefixes of [s], shortest first. *)
Fixpoint prefixes (s : string) : list string :=
  match s with
  | EmptyString => []
  | String c s' => map (String c) (EmptyString :: prefixes s')
  end.

(** After an ampersand, [r] starts a numeric character reference:
    [#] and a decimal digit, or [#x] and a hexadecimal digit. *)
Definition numeric_reference_at (r : string) : bool :=
  match r with
  | String c0 (String c r') =>
      Ascii.eqb c0 "#"
      && (Html.is_digit c
          || (Ascii.eqb c "x" || Ascii.eqb c "X")
             && match r' with
                | String h _ => Html.is_hexdigit h
                | EmptyString => false
                end)
  | _ => false
  end.

(** After an ampersand, [r] starts with a name of the table [html5]. *)
Definition named_reference_at (r : string) : bool :=
  existsb (fun g => match html5 g with Some _ => true | None => false end)
    (prefixes r).

(** [s] holds a character or entity reference somewhere. *)
Fixpoint has_reference (s : string) : bool :=
  match s with
  | EmptyString => false
  | String c s' =>
      Ascii.eqb c "&" && (numeric_reference_at s' || named_reference_at s')
      || has_reference s'
  end.

(** The normalized text of a paragraph, or the exception that
    [unescape] raises on it. *)
Definition caption_of (p : Element) : exc string := normalize (paragraph_text p).

Definition nonempty (c : string) : bool := negb (String.eqb c "").

(** The cue block that the iteration at index [i] of the loop of
    [xml_caption_to_srt] appends, or the exception that ends it. *)
Definition cue_line (ps : list Element) (i : nat) : exc string :=
  p <- item ps i ;;
  start <- float_attrib p "t" ;;
  caption <- caption_of p ;;
  end_ <- (if (i + 1 <? List.length ps)%nat
           then (q <- item ps (i + 1) ;; float_attrib q "t")
           else float_attrib p "d") ;;
  s <- timestamp_to_srt_time_format start ;;
  e <- timestamp_to_srt_time_format end_ ;;
  Ok (cue_block (i + 1) s e caption).

End References.

(** The end of the cue at index [i], given the [t] of every paragraph
    and the [d] of the last: the [t] of the next paragraph when there is
    one, and [d] otherwise. *)
Definition cue_end (starts : list float) (d : float) (i : nat) : float :=
  match nth_error starts (i + 1) with
  | Some t => t
  | None => d
  end.

(** The iteration of the loop of [xml_caption_to_srt] at index [i] fails
    with [e] on an attribute: the [t] of paragraph [i], or, once the text
    of paragraph [i] is normalized, the [t] of the paragraph after it or
    the [d] of the last paragraph. *)
Definition attribute_error {lib : PyLib} (ps : list Element) (i : nat) (e : exn) : Prop :=
  exists p,
    nth_error ps i = Some p /\
    (float_attrib p "t" = Raise e \/
     exists start caption,
       float_attrib p "t" = Ok start /\
       caption_of p = Ok caption /\
       ((exists q, nth_error ps (i + 1) = Some q /\ float_attrib q "t" = Raise e) \/
        (nth_error ps (i + 1) = None /\ float_attrib p "d" = Raise e))).

(** What [s.strip('.')] leaves has no dot at either end. *)
Definition dot_free_ends (s : string) : Prop :=
  (forall r, s <> String "." r) /\ (forall r, s <> r ++ ".").

Fixpoint dots (n : nat) : string :=
  match n with
  | O => EmptyString
  | S n' => String "." (dots n')
  end.

(** ** Documents and descriptors to run the code on *)

(** The document of [test_generate_srt_captions]. *)
Definition test_document : string :=
  "<?xml version=" ++ QUOTE ++ "1.0" ++ QUOTE ++ " encoding=" ++ QUOTE ++ "utf-8"
  ++ QUOTE ++ " ?>"
  ++ "<timedtext format=" ++ QUOTE ++ "3" ++ QUOTE ++ ">"
  ++ "<body>"
  ++ "<w t=" ++ QUOTE ++ "0" ++ QUOTE ++ " />"
  ++ "<p t=" ++ QUOTE ++ "320" ++ QUOTE ++ " d=" ++ QUOTE ++ "1.7" ++ QUOTE ++ ">"
  ++ "<s ac=" ++ QUOTE ++ "255" ++ QUOTE ++ ">[Herb, Software Engineer]" ++ LF
  ++ "本影片包含隱藏式字幕。</s>"
  ++ "</p>"
  ++ "<p t=" ++ QUOTE ++ "1750" ++ QUOTE ++ " d=" ++ QUOTE ++ "2410" ++ QUOTE
  ++ " w=" ++ QUOTE ++ "1" ++ QUOTE ++ " a=" ++ QUOTE ++ "1" ++ QUOTE ++ "> </p>"
  ++ "<p t=" ++ QUOTE ++ "1760" ++ QUOTE ++ " d=" ++ QUOTE ++ "5119" ++ QUOTE
  ++ " w=" ++ QUOTE ++ "1" ++ QUOTE ++ ">"
  ++ "<s ac=" ++ QUOTE ++ "255" ++ QUOTE ++ ">如要啓動字幕，請按一下這裡的圖示。</s>"
  ++ "</p>"
  ++ "</body>"
  ++ "</timedtext>".

(** Three paragraphs, the second with a text of one space. *)
Definition three_cues : string :=
  "<timedtext format='3'><body>"
  ++ "<p t='320' d='1.7'><s>A</s></p>"
  ++ "<p t='1750' d='2410' w='1'><s> </s></p>"
  ++ "<p t='1760' d='5119'><s>B</s></p>"
  ++ "</body></timedtext>".

(** Three paragraphs, the third without its [t]. *)
Definition third_without_t : string :=
  "<timedtext format='3'><body>"
  ++ "<p t='320' d='1.7'><s>A</s></p>"
  ++ "<p t='1750' d='2410'><s>B</s></p>"
  ++ "<p d='5119'><s>C</s></p>"
  ++ "</body></timedtext>".



(** Two paragraphs, the second at a time that is a number but no time
    of the calendar. *)
Definition time_out_of_range : string :=
  "<timedtext format='3'><body>"
  ++ "<p t='320' d='1.7'><s>A</s></p>"
  ++ "<p t='1e30' d='5119'><s>B</s></p>"
  ++ "</body></timedtext>".

(** A text that ends before its elements are closed. *)
Definition unclosed : string := "<timedtext><body>".

(** A document whose root has no [body]. *)
Definition bodiless : string := "<timedtext format='3'><head/></timedtext>".

Definition simple_name (t : string) : option NameDict :=
  Some {| simpleText := Some t; runs := None |}.

(** The descriptor of the tests. *)
Definition english : CaptionTrack :=
  {| baseUrl := None; track_name := simple_name "name1"; vssId := Some ".en" |}.

(** A descriptor whose [vssId] is a lone dot. *)
Definition lone_dot : CaptionTrack :=
  {| baseUrl := Some "url1"; track_name := simple_name "name1"; vssId := Some "." |}.


Definition with_runs (els : list Run) : CaptionTrack :=
  {| baseUrl := Some "url1";
     track_name := Some {| simpleText := None; runs := Some els |};
     vssId := Some "a.en" |}.

(** The result of the formatter on a time it accepts. *)
Definition formatted (t : float) : string :=
  match timestamp_to_srt_time_format t with
  | Ok s => s
  | Raise _ => ""
  end.

(** ** Properties *)

(** *** Loops and [try] blocks *)

Lemma for_each_app {S X : Type} (body : X -> block S unit) (xs ys : list X) (st : S) :
  for_each body (xs ++ ys) st =
  match for_each body xs st with
  | (st', Ok _) => for_each body ys st'
  | (st', Raise e) => (st', Raise e)
  end.
Proof.
  revert st. induction xs as [|x xs IH]; intros st; simpl.
  - reflexivity.
  - destruct (body x st) as [st' [[]|e]]; [apply IH | reflexivity].
Qed.

(** A loop whose every iteration appends [f x] to the state and a loop
    that stops at the first [x] on which [f] fails. *)
Lemma for_each_collect {X A : Type} (f : X -> exc A) (body : X -> block (list A) unit)
    (xs : list X) (out : list A) (st : list A) :
  (forall x st', body x st' =
     match f x with
     | Ok a => ((st' ++ [a])%list, Ok tt)
     | Raise e => (st', Raise e)
     end) ->
  map f xs = map Ok out ->
  for_each body xs st = ((st ++ out)%list, Ok tt).
Proof.
  intros Hbody. revert out st.
  induction xs as [|x xs IH]; intros [|a out] st Hmap; simpl in Hmap; try discriminate.
  - simpl. now rewrite app_nil_r.
  - injection Hmap as Hx Hxs. simpl. rewrite Hbody, Hx.
    rewrite (IH out _ Hxs), <- app_assoc. reflexivity.
Qed.

Lemma for_each_stop {X A : Type} (f : X -> exc A) (body : X -> block (list A) unit)
    (xs ys : list X) (x : X) (e : exn) (out : list A) (st : list A) :
  (forall x st', body x st' =
     match f x with
     | Ok a => ((st' ++ [a])%list, Ok tt)
     | Raise e => (st', Raise e)
     end) ->
  map f xs = map Ok out ->
  f x = Raise e ->
  for_each body (xs ++ x :: ys) st = ((st ++ out)%list, Raise e).
Proof.
  intros Hbody Hmap Hx.
  rewrite for_each_app, (for_each_collect f body xs out st Hbody Hmap).
  simpl. rewrite Hbody, Hx. reflexivity.
Qed.

(** *** Unparsable input *)

Section Generator_facts.
Context {lib : PyLib}.

(** C1, as the code has it: the parse stands before the [try] block, so
    on a text that the parser rejects with the exception [e] both
    generators raise [e]; nothing is caught, printed or returned. *)
Theorem unparsable_input_raises (xml_captions : string) (e : exn) :
  fromstring xml_captions = Raise e ->
  xml_caption_to_srt xml_captions = mk_outcome [] (Raise e) /\
  xml_caption_to_transcript xml_captions = mk_outcome [] (Raise e).
Proof.
  intros Hparse. unfold xml_caption_to_srt, xml_caption_to_transcript.
  rewrite Hparse. split; reflexivity.
Qed.

(** *** A document without [body] *)

(** C6: when the root has no [body] child, both generators catch the
    [AssertionError] they raise, print it and return the empty string. *)
Theorem missing_body_gives_empty (xml_captions : string) (root : Element) :
  fromstring xml_captions = Ok root ->
  ET.find "body" root = None ->
  let caught := [AssertionError "XML caption doesn't have a <body> tag"] in
  xml_caption_to_srt xml_captions = mk_outcome caught (Ok "") /\
  xml_caption_to_transcript xml_captions = mk_outcome caught (Ok "").
Proof.
  intros Hparse Hbody caught.
  unfold xml_caption_to_srt, xml_caption_to_transcript.
  rewrite Hparse.
  unfold try_print_then, srt_block, transcript_block, find_body.
  rewrite Hbody. split; reflexivity.
Qed.

(** *** The transcript *)

Lemma transcript_loop (ps : list Element) (captions segments : list string) :
  map caption_of ps = map Ok captions ->
  for_each transcript_step ps segments =
  ((segments ++ filter nonempty captions)%list, Ok tt).
Proof.
  revert captions segments.
  induction ps as [|p ps IH]; intros [|c captions] segments Hmap; simpl in Hmap;
    try discriminate.
  - simpl. now rewrite app_nil_r.
  - injection Hmap as Hp Hps. simpl.
    unfold transcript_step at 1. unfold caption_of in Hp. rewrite Hp.
    fold (nonempty c). destruct (nonempty c); rewrite (IH captions _ Hps).
    + now rewrite <- app_assoc.
    + reflexivity.
Qed.



End Generator_facts.

(** *** SubRip text *)

Section Srt_facts.
Context {lib : PyLib}.

Lemma srt_step_cue_line (ps : list Element) (i : nat) (segments : list string) :
  srt_step ps i segments =
  match cue_line ps i with
  | Ok line => ((segments ++ [line])%list, Ok tt)
  | Raise e => (segments, Raise e)
  end.
Proof.
  unfold srt_step, cue_line, append_segment, cue_block, caption_of.
  destruct (item ps i) as [p|e]; simpl; [|reflexivity].
  destruct (float_attrib p "t") as [start|e]; simpl; [|reflexivity].
  destruct (normalize (paragraph_text p)) as [caption|e]; simpl; [|reflexivity].
  destruct (if (i + 1 <? List.length ps)%nat
            then bind (item ps (i + 1)) (fun q => float_attrib q "t")
            else float_attrib p "d") as [end_|e]; simpl; [|reflexivity].
  destruct (timestamp_to_srt_time_format start) as [s|e]; simpl; [|reflexivity].
  destruct (timestamp_to_srt_time_format end_) as [e'|e]; reflexivity.
Qed.

Lemma srt_run (xml_captions : string) (root child : Element) :
  fromstring xml_captions = Ok root ->
  ET.find "body" root = Some child ->
  xml_caption_to_srt xml_captions =
  let ps := ET.findall "p" child in
  try_print_then (for_each (srt_step ps) (seq 0 (List.length ps))) []
    (fun segments => Str.strip (Str.join LF segments)).
Proof.
  intros Hparse Hbody. unfold xml_caption_to_srt. rewrite Hparse.
  unfold try_print_then, srt_block, find_body. rewrite Hbody. reflexivity.
Qed.

Lemma attribute_error_cue_line (ps : list Element) (i : nat) (e : exn) :
  attribute_error ps i e -> cue_line ps i = Raise e.
Proof.
  intros (p & Hp & Herr). unfold cue_line, item. rewrite Hp. simpl.
  destruct Herr as [Ht | (start & caption & Ht & Hc & [(q & Hq & Hqt) | (Hnone & Hd)])];
    rewrite Ht; simpl; [reflexivity| |]; rewrite Hc; simpl.
  - assert (Hlt : (i + 1 < List.length ps)%nat)
      by (apply nth_error_Some; rewrite Hq; discriminate).
    apply Nat.ltb_lt in Hlt. rewrite Hlt, Hq. simpl. rewrite Hqt. reflexivity.
  - apply nth_error_None in Hnone.
    assert (Hge : (i + 1 <? List.length ps)%nat = false) by (apply Nat.ltb_ge; lia).
    rewrite Hge, Hd. reflexivity.
Qed.

(** C3, as the code has it: when the iterations before index [i] have
    completed and appended the cue blocks [blocks], and the iteration at
    [i] fails with [e] on an absent or non-numeric attribute (the [t] of
    paragraph [i], or, its text being normalized, the [t] of the next
    paragraph or the [d] of the last), [xml_caption_to_srt] does not
    raise; it prints [e] and returns the blocks appended so far, joined
    and stripped.  The result is the empty string when [i] is [0], and a
    partial SubRip text otherwise. *)
Theorem srt_attribute_error_keeps_earlier_cues (xml_captions : string)
    (root child : Element) (i : nat) (e : exn) (blocks : list string) :
  fromstring xml_captions = Ok root ->
  ET.find "body" root = Some child ->
  let ps := ET.findall "p" child in
  map (cue_line ps) (seq 0 i) = map Ok blocks ->
  attribute_error ps i e ->
  xml_caption_to_srt xml_captions =
    mk_outcome [e] (Ok (Str.strip (Str.join LF blocks))) /\
  (i = 0%nat -> xml_caption_to_srt xml_captions = mk_outcome [e] (Ok "")).
Proof.
  intros Hparse Hbody ps Hdone Herr.
  assert (Hrun : xml_caption_to_srt xml_captions =
                 mk_outcome [e] (Ok (Str.strip (Str.join LF blocks)))).
  { rewrite (srt_run _ _ _ Hparse Hbody). fold ps. cbv zeta.
    assert (Hlt : (i < List.length ps)%nat).
    { destruct Herr as (p & Hp & _). apply nth_error_Some. rewrite Hp. discriminate. }
    replace (List.length ps) with (i + S (List.length ps - S i))%nat by lia.
    rewrite seq_app. simpl seq.
    unfold try_print_then.
    rewrite (for_each_stop (cue_line ps) (srt_step ps) _ _ i e blocks []
               (srt_step_cue_line ps) Hdone (attribute_error_cue_line _ _ _ Herr)).
    reflexivity. }
  split; [exact Hrun|].
  intros ->. destruct blocks; [exact Hrun | discriminate Hdone].
Qed.

Lemma map_seq_ok {A : Type} (f : nat -> exc A) (g : nat -> A) (n : nat) :
  (forall i, (i < n)%nat -> f i = Ok (g i)) ->
  map f (seq 0 n) = map Ok (map g (seq 0 n)).
Proof.
  intros H. rewrite map_map. apply map_ext_in.
  intros i Hi. apply in_seq in Hi. apply H. lia.
Qed.

Lemma cue_end_nth (starts : list float) (d : float) (i : nat) :
  cue_end starts d i = nth (i + 1) starts d.
Proof.
  unfold cue_end. destruct (nth_error starts (i + 1)) as [t|] eqn:H.
  - symmetry. now apply nth_error_nth.
  - symmetry. apply nth_overflow. now apply nth_error_None.
Qed.

Lemma Forall2_nth_error {A B : Type} (R : A -> B -> Prop) (xs : list A) (ys : list B) :
  Forall2 R xs ys ->
  forall i x, nth_error xs i = Some x -> exists y, nth_error ys i = Some y /\ R x y.
Proof.
  induction 1 as [|x y xs ys Hxy _ IH]; intros [|i] z Hz; simpl in *; try discriminate.
  - injection Hz as <-. eauto.
  - eauto.
Qed.

(** C2, as the code has it: on a document whose [N] paragraphs all carry
    a numeric [t] and a text that normalizes, whose last paragraph carries
    a numeric [d], and whose times the formatter accepts ([fmt] names its
    results), [xml_caption_to_srt] prints nothing and returns [N] cue
    blocks, joined and stripped.  The block at index [i] (from 0) has the
    number [i + 1], the normalized text of paragraph [i], and starts at
    the [t] of paragraph [i]; it ends at the [t] of paragraph [i + 1],
    and the last block at the value of its own [d], formatted as a time
    stamp like the others and not added to the start. *)
Theorem srt_cue_blocks (xml_captions : string) (root child : Element)
    (starts : list float) (d : float) (captions : list string)
    (fmt : float -> string) :
  fromstring xml_captions = Ok root ->
  ET.find "body" root = Some child ->
  let ps := ET.findall "p" child in
  Forall2 (fun p t => float_attrib p "t" = Ok t) ps starts ->
  Forall2 (fun p c => caption_of p = Ok c) ps captions ->
  (forall p, nth_error ps (Nat.pred (List.length ps)) = Some p ->
             float_attrib p "d" = Ok d) ->
  (forall t, In t (starts ++ [d]) -> timestamp_to_srt_time_format t = Ok (fmt t)) ->
  exists blocks : list string,
    xml_caption_to_srt xml_captions =
      mk_outcome [] (Ok (Str.strip (Str.join LF blocks))) /\
    List.length blocks = List.length ps /\
    forall i t c, nth_error starts i = Some t -> nth_error captions i = Some c ->
      nth_error blocks i =
        Some (cue_block (i + 1) (fmt t) (fmt (cue_end starts d i)) c).
Proof.
  intros Hparse Hbody ps Hstarts Hcaptions Hlast Hfmt.
  set (g := fun i => cue_block (i + 1) (fmt (nth i starts d))
                       (fmt (cue_end starts d i)) (nth i captions "")).
  exists (map g (seq 0 (List.length ps))).
  assert (Hlen : List.length ps = List.length starts)
    by (eapply Forall2_length; eassumption).
  assert (Ht : forall i p, nth_error ps i = Some p ->
                           float_attrib p "t" = Ok (nth i starts d)).
  { intros i p Hp.
    destruct (Forall2_nth_error _ _ _ Hstarts i p Hp) as (t & Hti & Hpt).
    now rewrite (nth_error_nth _ _ d Hti). }
  assert (Hc : forall i p, nth_error ps i = Some p ->
                           caption_of p = Ok (nth i captions "")).
  { intros i p Hp.
    destruct (Forall2_nth_error _ _ _ Hcaptions i p Hp) as (c & Hci & Hpc).
    now rewrite (nth_error_nth _ _ "" Hci). }
  assert (Hin : forall i, In (nth i starts d) (starts ++ [d])).
  { intros i. apply in_or_app. destruct (Nat.lt_ge_cases i (List.length starts)).
    - left. now apply nth_In.
    - right. rewrite nth_overflow by assumption. now left. }
  split; [|split].
  - rewrite (srt_run _ _ _ Hparse Hbody). fold ps. cbv zeta.
    unfold try_print_then.
    rewrite (for_each_collect (cue_line ps) (srt_step ps) _ (map g (seq 0 (List.length ps))) []
               (srt_step_cue_line ps)); [reflexivity|].
    apply map_seq_ok. intros i Hi.
    destruct (nth_error ps i) as [p|] eqn:Hp; [|apply nth_error_None in Hp; lia].
    unfold cue_line, item, g. rewrite Hp. simpl.
    rewrite (Ht _ _ Hp). simpl. rewrite (Hc _ _ Hp). simpl.
    rewrite cue_end_nth.
    destruct (i + 1 <? List.length ps)%nat eqn:Hnext.
    + apply Nat.ltb_lt in Hnext.
      destruct (nth_error ps (i + 1)) as [q|] eqn:Hq; [|apply nth_error_None in Hq; lia].
      simpl. rewrite (Ht _ _ Hq). simpl. rewrite !Hfmt by apply Hin. reflexivity.
    + apply Nat.ltb_ge in Hnext.
      assert (Hi' : i = Nat.pred (List.length ps)) by lia.
      rewrite (Hlast p) by (rewrite <- Hi'; exact Hp). simpl.
      rewrite (@nth_overflow _ starts (i + 1)%nat d) by lia.
      rewrite !Hfmt; [reflexivity | apply in_or_app; right; now left | apply Hin].
  - now rewrite length_map, length_seq.
  - intros i t c Hti Hci.
    assert (Hi : (i < List.length ps)%nat).
    { rewrite Hlen. apply nth_error_Some. rewrite Hti. discriminate. }
    rewrite nth_error_map, nth_error_seq.
    apply Nat.ltb_lt in Hi. rewrite Hi. simpl. unfold g.
    rewrite (nth_error_nth _ _ d Hti), (nth_error_nth _ _ "" Hci). reflexivity.
Qed.

End Srt_facts.

(** *** Strings *)

Lemma append_nil_r (s : string) : s ++ "" = s.
Proof. induction s as [|c s IH]; simpl; [reflexivity | now rewrite IH]. Qed.

Lemma append_assoc (a b c : string) : (a ++ b) ++ c = a ++ (b ++ c).
Proof. induction a as [|x a IH]; simpl; [reflexivity | now rewrite IH]. Qed.

Lemma rev_onto_spec (s acc : string) : Str.rev_onto s acc = Str.rev s ++ acc.
Proof.
  unfold Str.rev. revert acc.
  induction s as [|c s IH]; intros acc; simpl; [reflexivity|].
  rewrite (IH (String c acc)), (IH (String c "")), append_assoc. reflexivity.
Qed.

Lemma rev_cons (c : ascii) (s : string) : Str.rev (String c s) = Str.rev s ++ String c "".
Proof. unfold Str.rev at 1. simpl. apply rev_onto_spec. Qed.

Lemma rev_append (a b : string) : Str.rev (a ++ b) = Str.rev b ++ Str.rev a.
Proof.
  induction a as [|c a IH]; simpl.
  - now rewrite append_nil_r.
  - now rewrite !rev_cons, IH, append_assoc.
Qed.

Lemma rev_involutive (s : string) : Str.rev (Str.rev s) = s.
Proof.
  induction s as [|c s IH]; [reflexivity|].
  now rewrite rev_cons, rev_append, IH.
Qed.

Lemma dots_snoc (n : nat) : dots n ++ "." = String "." (dots n).
Proof. induction n as [|n IH]; simpl; [reflexivity | now rewrite IH]. Qed.

Lemma rev_dots (n : nat) : Str.rev (dots n) = dots n.
Proof.
  induction n as [|n IH]; [reflexivity|].
  simpl. now rewrite rev_cons, IH, dots_snoc.
Qed.

Lemma dots_add (a b : nat) : dots a ++ dots b = dots (a + b).
Proof. induction a as [|a IH]; simpl; [reflexivity | now rewrite IH]. Qed.

Lemma lstrip_char_spec (s : string) :
  exists n, s = dots n ++ Str.lstrip_char "." s /\
            forall r, Str.lstrip_char "." s <> String "." r.
Proof.
  induction s as [|c s (n & Hs & Hfree)].
  - exists O. split; [reflexivity | discriminate].
  - simpl. destruct (Ascii.eqb_spec c ".") as [->|Hc].
    + exists (S n). split; [simpl; now rewrite <- Hs | exact Hfree].
    + exists O. split; [reflexivity|]. intros r Hr. now injection Hr.
Qed.

Lemma strip_char_spec (s : string) :
  exists a b, s = dots a ++ Str.strip_char "." s ++ dots b /\
              dot_free_ends (Str.strip_char "." s).
Proof.
  unfold Str.strip_char.
  destruct (lstrip_char_spec s) as (a & Hs & Hhead).
  set (s1 := Str.lstrip_char "." s) in *.
  destruct (lstrip_char_spec (Str.rev s1)) as (b & Hr & Htail).
  set (s2 := Str.lstrip_char "." (Str.rev s1)) in *.
  assert (Hs1 : s1 = Str.rev s2 ++ dots b).
  { rewrite <- (rev_involutive s1), Hr, rev_append, rev_dots. reflexivity. }
  exists a, b. split; [now rewrite <- Hs1|]. split.
  - intros r Hr'. apply (Hhead (r ++ dots b)). rewrite Hs1, Hr'. reflexivity.
  - intros r Hr'. apply (Htail (Str.rev r)).
    rewrite <- (rev_involutive s2), Hr', rev_append. reflexivity.
Qed.

Lemma dots_dot_free (n : nat) (s tl : string) :
  dot_free_ends s -> dots n = s ++ tl -> s = "".
Proof.
  intros [Hhead _] H. destruct s as [|c s]; [reflexivity|].
  destruct n as [|n]; simpl in H; [discriminate|].
  injection H as <- _. now destruct (Hhead s).
Qed.

(** *** Construction of a [Caption] *)

(** C7, as the code has it: the code of a constructed [Caption] is the
    [vssId] of the descriptor without its leading and trailing dots: the
    [vssId] is some dots, the code, and some dots, and the code neither
    starts nor ends with a dot.  The code is empty exactly when the
    [vssId] holds nothing but dots. *)
Theorem code_is_stripped_vssId (caption_track : CaptionTrack) (c : Caption) :
  Caption_init caption_track = Ok c ->
  exists v a b,
    vssId caption_track = Some v /\
    v = dots a ++ code c ++ dots b /\
    dot_free_ends (code c) /\
    (code c = "" <-> exists n, v = dots n).
Proof.
  unfold Caption_init. intros H.
  destruct (track_name caption_track) as [nd|]; simpl in H; [|discriminate].
  destruct (match simpleText nd with
            | Some t => Ok (Some t)
            | None => bind (getitem "runs" (runs nd))
                        (fun els => Ok (assign_run_texts els None))
            end) as [nm|]; simpl in H; [|discriminate].
  destruct (vssId caption_track) as [v|]; simpl in H; [|discriminate].
  injection H as <-. simpl.
  destruct (strip_char_spec v) as (a & b & Hv & Hfree).
  exists v, a, b. repeat split; try assumption; try (apply Hfree).
  - intros Hnil. exists (a + b)%nat. rewrite Hv at 1. rewrite Hnil. simpl. apply dots_add.
  - intros (n & Hn).
    assert (Hcut : dots (n - a) = Str.strip_char "." v ++ dots b).
    { clear - Hv Hn. rewrite Hn in Hv at 1. clear Hn. revert n Hv.
      induction a as [|a IH]; intros n Hv; simpl in *.
      - now rewrite Nat.sub_0_r.
      - destruct n as [|n]; simpl in Hv; [discriminate|].
        injection Hv as Hv. simpl. now apply IH. }
    exact (dots_dot_free _ _ _ Hfree Hcut).
Qed.

Lemma assign_run_texts_none (els : list Run) (name0 : option string) :
  Forall (fun r => run_text r = None) els -> assign_run_texts els name0 = name0.
Proof.
  unfold assign_run_texts. intros H. revert name0.
  induction H as [|el els Hel _ IH]; intros name0; simpl; [reflexivity|].
  rewrite Hel. apply IH.
Qed.

(** C8: when the name of the descriptor has no [simpleText], the name of
    the constructed [Caption] is the text of the last run that has one;
    the texts of the runs before it are not kept. *)
Theorem name_is_last_run_text (caption_track : CaptionTrack) (name_dict : NameDict)
    (before after : list Run) (el : Run) (t : string) (c : Caption) :
  track_name caption_track = Some name_dict ->
  simpleText name_dict = None ->
  runs name_dict = Some (before ++ el :: after)%list ->
  run_text el = Some t ->
  Forall (fun r => run_text r = None) after ->
  Caption_init caption_track = Ok c ->
  name c = Some t.
Proof.
  intros Hname Hsimple Hruns Hel Hafter. unfold Caption_init.
  rewrite Hname. simpl. rewrite Hsimple, Hruns. simpl.
  destruct (vssId caption_track) as [v|]; simpl; [|discriminate].
  intros H. injection H as <-. simpl.
  unfold assign_run_texts. rewrite fold_left_app. simpl. rewrite Hel.
  exact (assign_run_texts_none after (Some t) Hafter).
Qed.


(** *** Normalization of a text without references *)

Lemma length_append (a b : string) :
  String.length (a ++ b) = (String.length a + String.length b)%nat.
Proof. induction a as [|c a IH]; simpl; [reflexivity | now rewrite IH]. Qed.

Lemma replace_absent (old new s : string) :
  Str.contains old s = false -> Str.replace old new s = s.
Proof.
  unfold Str.replace. induction s as [|c s IH]; intros H; [reflexivity|].
  cbn [Str.contains] in H. apply orb_false_iff in H as [Hpre Hrest].
  cbn [Str.replace_from]. rewrite Hpre, (IH Hrest). reflexivity.
Qed.

Section Unescape_facts.
Context {lib : PyLib}.

Lemma span_app (p : ascii -> bool) (s a b : string) :
  Html.span p s = (a, b) -> s = a ++ b.
Proof.
  revert a b. induction s as [|c s IH]; intros a b H; simpl in H.
  - now injection H as <- <-.
  - destruct (p c).
    + destruct (Html.span p s) as [a' b'] eqn:Hs. injection H as <- <-.
      simpl. now rewrite (IH _ _ eq_refl).
    + now injection H as <- <-.
Qed.

Lemma span_head (p : ascii -> bool) (s a b : string) (c : ascii) :
  Html.span p s = (String c a, b) -> exists s', s = String c s' /\ p c = true.
Proof.
  destruct s as [|c' s]; simpl; [discriminate|].
  destruct (p c') eqn:Hp; [|discriminate].
  destruct (Html.span p s) as [a' b']. intros H. injection H as -> _ _. eauto.
Qed.

Lemma span_name_app (budget : nat) (inside : bool) (s a b : string) :
  Html.span_name budget inside s = (a, b) -> s = a ++ b.
Proof.
  revert budget inside a b.
  induction s as [|c s IH]; intros budget inside a b H; simpl in H.
  - now injection H as <- <-.
  - destruct (inside && Utf8.continuation c).
    + destruct (Html.span_name budget true s) as [a' b'] eqn:Hs.
      injection H as <- <-. simpl. now rewrite (IH _ _ _ _ Hs).
    + destruct (Html.name_char c); [|now injection H as <- <-].
      destruct budget as [|k]; [now injection H as <- <-|].
      destruct (Html.span_name k true s) as [a' b'] eqn:Hs.
      injection H as <- <-. simpl. now rewrite (IH _ _ _ _ Hs).
Qed.

Lemma with_semicolon_split (g r : string) :
  exists r', g ++ r = Html.with_semicolon g r ++ r'.
Proof.
  destruct r as [|c r]; simpl.
  - now exists "".
  - destruct (Ascii.eqb_spec c ";") as [->|_].
    + exists r. now rewrite append_assoc.
    + now exists (String c r).
Qed.

Lemma with_semicolon_head (c : ascii) (g r : string) :
  exists g', Html.with_semicolon (String c g) r = String c g'.
Proof.
  unfold Html.with_semicolon. destruct r as [|x r]; [eauto|].
  destruct (Ascii.eqb x ";"); simpl; eauto.
Qed.

(** Where no numeric reference starts, what the pattern matches is a
    name: a prefix of the text that does not start with [#]. *)
Lemma match_charref_name (s g : string) :
  numeric_reference_at s = false ->
  Html.match_charref s = Some g ->
  exists c g' rest, g = String c g' /\ Ascii.eqb c "#" = false /\ s = g ++ rest.
Proof.
  intros Hnum Hmatch. destruct s as [|c s1]; [discriminate|].
  cbn [Html.match_charref] in Hmatch.
  destruct (Ascii.eqb c "#") eqn:Hc.
  - exfalso. unfold Html.match_numeric in Hmatch.
    destruct (Html.span Html.is_digit s1) as [[|d ds] r] eqn:Hds.
    + destruct s1 as [|x s2]; [discriminate|].
      destruct (Ascii.eqb x "x" || Ascii.eqb x "X") eqn:Hx; [|discriminate].
      destruct (Html.span Html.is_hexdigit s2) as [[|h hs] r2] eqn:Hhs; [discriminate|].
      apply span_head in Hhs as (s3 & -> & Hh).
      cbn [numeric_reference_at] in Hnum. rewrite Hc, Hx, Hh in Hnum.
      now rewrite orb_true_r in Hnum.
    + apply span_head in Hds as (s2 & -> & Hd).
      cbn [numeric_reference_at] in Hnum. now rewrite Hc, Hd in Hnum.
  - unfold Html.match_name in Hmatch.
    destruct (Html.span_name 32 false (String c s1)) as [[|c' nm] r] eqn:Hnm;
      [discriminate|].
    injection Hmatch as <-.
    pose proof (span_name_app _ _ _ _ _ Hnm) as Hs.
    simpl in Hs. injection Hs as <- Hs1.
    destruct (with_semicolon_head c nm r) as (g' & Hg).
    destruct (with_semicolon_split (String c nm) r) as (rest & Hrest).
    exists c, g', rest. rewrite <- Hg. repeat split; [assumption|].
    rewrite <- Hrest. simpl. now rewrite Hs1.
Qed.

Lemma prefixes_complete (s p r : string) :
  p <> "" -> s = p ++ r -> In p (prefixes s).
Proof.
  revert p. induction s as [|c s IH]; intros [|x p] Hp Hs; try easy.
  simpl in Hs. injection Hs as <- Hs. cbn [prefixes]. apply in_map.
  destruct p as [|y p]; [now left|]. right. now apply IH.
Qed.

Lemma no_name_at (s p r : string) :
  named_reference_at s = false -> p <> "" -> s = p ++ r -> html5 p = None.
Proof.
  intros Hnone Hp Hs. unfold named_reference_at in Hnone.
  destruct (html5 p) as [v|] eqn:Hv; [|reflexivity].
  assert (Hex : existsb (fun g => match html5 g with Some _ => true | None => false end)
                  (prefixes s) = true).
  { apply existsb_exists. exists p. split; [now apply (prefixes_complete s p r)|].
    now rewrite Hv. }
  congruence.
Qed.

Lemma split_at_app (x : nat) (inside : bool) (s a b : string) :
  Utf8.split_at x inside s = (a, b) -> s = a ++ b.
Proof.
  revert x inside a b.
  induction s as [|c s IH]; intros x inside a b H; simpl in H.
  - now injection H as <- <-.
  - destruct (inside && Utf8.continuation c).
    + destruct (Utf8.split_at x true s) as [a' b'] eqn:Hs.
      injection H as <- <-. simpl. now rewrite (IH _ _ _ _ Hs).
    + destruct x as [|x']; [now injection H as <- <-|].
      destruct (Utf8.split_at x' true s) as [a' b'] eqn:Hs.
      injection H as <- <-. simpl. now rewrite (IH _ _ _ _ Hs).
Qed.

Lemma longest_name_absent (x : nat) (s g rest : string) (c : ascii) (g' : string) :
  named_reference_at s = false -> s = g ++ rest -> g = String c g' ->
  Html.longest_name x g = None.
Proof.
  intros Hnone Hs Hg. induction x as [|x IH]; [reflexivity|].
  cbn [Html.longest_name]. destruct (2 <=? S x)%nat; [|reflexivity].
  destruct (Utf8.split_at (S x) false g) as [a b] eqn:Hsplit.
  assert (Ha : a <> "").
  { rewrite Hg in Hsplit. simpl in Hsplit.
    destruct (Utf8.split_at x true g') as [a' b']. now injection Hsplit as <- _. }
  apply split_at_app in Hsplit.
  rewrite (no_name_at s a (b ++ rest) Hnone Ha); [exact IH|].
  now rewrite Hs, Hsplit, append_assoc.
Qed.

Lemma replace_charref_name (s g rest : string) (c : ascii) (g' : string) :
  named_reference_at s = false -> s = g ++ rest -> g = String c g' ->
  Ascii.eqb c "#" = false ->
  Html.replace_charref g = Ok (String "&" g).
Proof.
  intros Hnone Hs Hg Hc.
  assert (Hnamed : Html.named_charref g = String "&" g).
  { unfold Html.named_charref.
    rewrite (no_name_at s g rest Hnone) by (subst g; easy).
    now rewrite (longest_name_absent _ s g rest c g'). }
  rewrite <- Hnamed. rewrite Hg at 1. unfold Html.replace_charref.
  destruct g' as [|x g2]; [now rewrite Hg|]. rewrite Hc. now rewrite Hg.
Qed.

Lemma sub_charref_skip (g rest : string) :
  Html.sub_charref (String.length g) (g ++ rest) = Html.sub_charref O rest.
Proof. induction g as [|c g IH]; [reflexivity | exact IH]. Qed.

Lemma has_reference_app (a b : string) :
  has_reference (a ++ b) = false -> has_reference b = false.
Proof.
  induction a as [|c a IH]; [easy|]. simpl.
  intros H. apply orb_false_iff in H as [_ H]. now apply IH.
Qed.

Lemma sub_charref_plain (n : nat) (s : string) :
  (String.length s <= n)%nat -> has_reference s = false ->
  Html.sub_charref O s = Ok s.
Proof.
  revert s. induction n as [|n IH]; intros [|c s] Hlen Href; try reflexivity;
    simpl in Hlen; [lia|].
  cbn [has_reference] in Href. apply orb_false_iff in Href as [Hhere Hrest].
  cbn [Html.sub_charref].
  destruct (Ascii.eqb c "&") eqn:Hc;
    [|now rewrite (IH s) by (assumption || lia)].
  simpl in Hhere. apply orb_false_iff in Hhere as [Hnum Hname].
  destruct (Html.match_charref s) as [g|] eqn:Hmatch;
    [|now rewrite (IH s) by (assumption || lia)].
  destruct (match_charref_name s g Hnum Hmatch) as (x & g' & rest & Hg & Hx & Hs).
  rewrite (replace_charref_name s g rest x g' Hname Hs Hg Hx).
  cbn [bind].
  apply Ascii.eqb_eq in Hc. subst c.
  rewrite Hs at 1. rewrite sub_charref_skip.
  rewrite (IH rest).
  - simpl. now rewrite <- Hs.
  - rewrite Hs, length_append in Hlen. lia.
  - apply (has_reference_app g). now rewrite <- Hs.
Qed.

Lemma unescape_plain (s : string) :
  has_reference s = false -> Html.unescape s = Ok s.
Proof.
  intros H. unfold Html.unescape.
  destruct (negb (Str.contains "&" s)); [reflexivity|].
  now apply (sub_charref_plain (String.length s)).
Qed.

(** C9: a text with no newline, no two spaces in a row and no character
    or entity reference is its own normal form. *)
Theorem normalize_normalized (text : string) :
  Str.contains LF text = false ->
  Str.contains "  " text = false ->
  has_reference text = false ->
  normalize text = Ok text.
Proof.
  intros Hlf Hsp Href. unfold normalize.
  rewrite (replace_absent LF " " text Hlf).
  rewrite (replace_absent "  " " " text Hsp).
  exact (unescape_plain text Href).
Qed.

End Unescape_facts.

(** *** Time stamps *)

(** C5: the formatter of milliseconds is the formatter of seconds on the
    quotient by 1000, and the values of the tests come out as the tests
    say.  The float [0x1.f1eb851eb851fp+1] is the binary64 that the
    literal [3.89] denotes. *)
Theorem timestamp_formats :
  (forall ms : float,
     timestamp_to_srt_time_format ms = float_to_srt_time_format (ms / 1000)%float) /\
  timestamp_to_srt_time_format 3890 = Ok "00:00:03,890" /\
  timestamp_to_srt_time_format 1000 = Ok "00:00:01,000" /\
  timestamp_to_srt_time_format 10003 = Ok "00:00:10,003" /\
  timestamp_to_srt_time_format 70003 = Ok "00:01:10,003" /\
  timestamp_to_srt_time_format 123123 = Ok "00:02:03,123" /\
  timestamp_to_srt_time_format 3903123 = Ok "01:05:03,123" /\
  float_to_srt_time_format 0x1.f1eb851eb851fp+1 = Ok "00:00:03,890".
Proof.
  split; [intros ms; reflexivity|].
  repeat split; vm_compute; reflexivity.
Qed.

Example literal_3_89 :
  Reference.float_of_str "3.89" = Ok 0x1.f1eb851eb851fp+1%float.
Proof. vm_compute. reflexivity. Qed.

(** The formatter on values outside the range of the tests: the hours
    wrap at a day, a fraction that rounds up to one shows as [1.000], a
    negative fraction keeps its sign, and a NaN or a time too large is an
    exception. *)
Example timestamp_edges :
  float_to_srt_time_format 86400 = Ok "00:00:00,000" /\
  float_to_srt_time_format 0x1.ffcb923a29c78p-1 = Ok "00:00:00,1.000" /\
  float_to_srt_time_format (-1.5) = Ok "23:59:59,-500" /\
  float_to_srt_time_format nan = Raise ValueError /\
  float_to_srt_time_format infinity = Raise OverflowError /\
  float_to_srt_time_format 0x1p+60 = Raise OSError.
Proof. repeat split; vm_compute; reflexivity. Qed.

(** The formatter at the ends of the calendar: the last second of the
    year [2147483647] is formatted; from the year [2147483648] on
    [gmtime] returns and [strftime] raises, and from the year
    [2147485548] on, the value [2^63] included, [gmtime] raises. *)
Example formatter_year_edges :
  float_to_srt_time_format 67767976233532792 = Ok "23:59:52,000" /\
  float_to_srt_time_format 67767976233532800 = Raise OverflowError /\
  float_to_srt_time_format 67768036191676792 = Raise OverflowError /\
  float_to_srt_time_format 67768036191676800 = Raise OSError /\
  float_to_srt_time_format 0x1p+63 = Raise OSError /\
  float_to_srt_time_format 0x1.0000000000001p+63 = Raise OverflowError.
Proof. repeat split; vm_compute; reflexivity. Qed.

(** *** The code on concrete inputs *)

(** [test_generate_srt_captions], replayed. *)
Example test_generate_srt_captions :
  xml_caption_to_srt test_document =
  mk_outcome []
    (Ok ("1" ++ LF
         ++ "00:00:00,320 --> 00:00:01,750" ++ LF
         ++ "[Herb, Software Engineer] 本影片包含隱藏式字幕。" ++ LF
         ++ LF
         ++ "2" ++ LF
         ++ "00:00:01,750 --> 00:00:01,760" ++ LF
         ++ LF
         ++ LF
         ++ "3" ++ LF
         ++ "00:00:01,760 --> 00:00:05,119" ++ LF
         ++ "如要啓動字幕，請按一下這裡的圖示。")).
Proof. vm_compute. reflexivity. Qed.

(** [test_repr], replayed. *)
Example test_repr :
  (c <- Caption_init english ;; Caption_repr c)
  = Ok ("<Caption lang=" ++ QUOTE ++ "name1" ++ QUOTE ++ " code=" ++ QUOTE ++ "en"
          ++ QUOTE ++ ">").
Proof. vm_compute. reflexivity. Qed.

(** A paragraph whose text is one space is not empty: it stays in the
    transcript, and its spaces show between its neighbours. *)
Example transcript_three_cues :
  xml_caption_to_transcript three_cues = mk_outcome [] (Ok "A   B").
Proof. vm_compute. reflexivity. Qed.

(** C1, at a text the parser rejects: both generators raise, and return
    no empty string. *)
Lemma unclosed_document_raises :
  fromstring unclosed = Raise ParseError /\
  result (xml_caption_to_srt unclosed) <> Ok "" /\
  result (xml_caption_to_transcript unclosed) <> Ok "".
Proof. repeat split; vm_compute; discriminate. Qed.

Lemma unparsable_input_raises_witness :
  fromstring unclosed = Raise ParseError /\
  xml_caption_to_srt unclosed = mk_outcome [] (Raise ParseError) /\
  xml_caption_to_transcript unclosed = mk_outcome [] (Raise ParseError).
Proof.
  assert (H : fromstring unclosed = Raise ParseError) by (vm_compute; reflexivity).
  split; [exact H | exact (unparsable_input_raises unclosed ParseError H)].
Defined.

Lemma missing_body_gives_empty_witness :
  xml_caption_to_srt bodiless
    = mk_outcome [AssertionError "XML caption doesn't have a <body> tag"] (Ok "") /\
  xml_caption_to_transcript bodiless
    = mk_outcome [AssertionError "XML caption doesn't have a <body> tag"] (Ok "").
Proof.
  eapply (missing_body_gives_empty bodiless); vm_compute; reflexivity.
Defined.



(** C2, at a document whose second paragraph has the numeric [t] of
    [1e30]: the formatter rejects that time, and of the two paragraphs no
    cue block is returned. *)
Lemma unformattable_time_drops_the_cues :
  (exists root child,
     fromstring time_out_of_range = Ok root /\
     ET.find "body" root = Some child /\
     map (fun p => float_attrib p "t") (ET.findall "p" child)
       = [Ok 320%float; Ok 0x1.93e5939a08ceap+99%float] /\
     map (fun p => float_attrib p "d") (ET.findall "p" child)
       = [Ok 0x1.b333333333333p+0%float; Ok 5119%float]) /\
  xml_caption_to_srt time_out_of_range = mk_outcome [OverflowError] (Ok "").
Proof.
  split; [|vm_compute; reflexivity].
  destruct (fromstring time_out_of_range) as [root|] eqn:Hroot;
    [|vm_compute in Hroot; discriminate Hroot].
  destruct (ET.find "body" root) as [child|] eqn:Hchild;
    [|vm_compute in Hroot; injection Hroot as <-; vm_compute in Hchild;
      discriminate Hchild].
  exists root, child. split; [reflexivity|]. split; [exact Hchild|].
  vm_compute in Hroot. injection Hroot as <-.
  vm_compute in Hchild. injection Hchild as <-.
  split; vm_compute; reflexivity.
Qed.

Lemma srt_cue_blocks_witness :
  exists blocks : list string,
    xml_caption_to_srt three_cues =
      mk_outcome [] (Ok (Str.strip (Str.join LF blocks))) /\
    blocks = [cue_block 1 "00:00:00,320" "00:00:01,750" "A";
              cue_block 2 "00:00:01,750" "00:00:01,760" " ";
              cue_block 3 "00:00:01,760" "00:00:05,119" "B"].
Proof.
  destruct (fromstring three_cues) as [root|] eqn:Hroot;
    [|vm_compute in Hroot; discriminate Hroot].
  destruct (ET.find "body" root) as [child|] eqn:Hchild;
    [|vm_compute in Hroot; injection Hroot as <-; vm_compute in Hchild;
      discriminate Hchild].
  destruct (srt_cue_blocks three_cues root child [320; 1750; 1760]%float 5119%float
              ["A"; " "; "B"] formatted Hroot Hchild)
    as (blocks & Hrun & Hlen & Hnth).
  - vm_compute in Hroot. injection Hroot as <-.
    vm_compute in Hchild. injection Hchild as <-.
    do 3 (constructor; [vm_compute; reflexivity|]). constructor.
  - vm_compute in Hroot. injection Hroot as <-.
    vm_compute in Hchild. injection Hchild as <-.
    do 3 (constructor; [vm_compute; reflexivity|]). constructor.
  - vm_compute in Hroot. injection Hroot as <-.
    vm_compute in Hchild. injection Hchild as <-.
    intros p Hp. vm_compute in Hp. injection Hp as <-. vm_compute. reflexivity.
  - intros t [<-|[<-|[<-|[<-|[]]]]]; vm_compute; reflexivity.
  - exists blocks. split; [exact Hrun|].
    vm_compute in Hroot. injection Hroot as <-.
    vm_compute in Hchild. injection Hchild as <-.
    vm_compute in Hlen.
    destruct blocks as [|b1 [|b2 [|b3 [|b4 blocks]]]]; try discriminate Hlen.
    pose proof (Hnth 0%nat _ _ eq_refl eq_refl) as H1.
    pose proof (Hnth 1%nat _ _ eq_refl eq_refl) as H2.
    pose proof (Hnth 2%nat _ _ eq_refl eq_refl) as H3.
    vm_compute in H1, H2, H3.
    injection H1 as ->. injection H2 as ->. injection H3 as ->.
    vm_compute. reflexivity.
Defined.

(** C3, at a document whose third paragraph has no [t]: the first cue
    was appended before the failure and is returned. *)
Lemma third_without_t_keeps_first_cue :
  (exists root child p,
     fromstring third_without_t = Ok root /\
     ET.find "body" root = Some child /\
     nth_error (ET.findall "p" child) 2 = Some p /\
     ET.lookup "t" (ET.attrib p) = None) /\
  xml_caption_to_srt third_without_t =
    mk_outcome [KeyError "t"]
      (Ok ("1" ++ LF ++ "00:00:00,320 --> 00:00:01,750" ++ LF ++ "A")) /\
  result (xml_caption_to_srt third_without_t) <> Ok "".
Proof.
  split; [|split].
  - destruct (fromstring third_without_t) as [root|] eqn:Hroot;
      [|vm_compute in Hroot; discriminate].
    destruct (ET.find "body" root) as [child|] eqn:Hchild;
      [|vm_compute in Hroot; injection Hroot as <-; vm_compute in Hchild; discriminate].
    destruct (nth_error (ET.findall "p" child) 2) as [p|] eqn:Hp;
      vm_compute in Hroot; injection Hroot as <-;
      vm_compute in Hchild; injection Hchild as <-;
      vm_compute in Hp; [|discriminate].
    injection Hp as <-. do 3 eexists. repeat split.
  - vm_compute. reflexivity.
  - vm_compute. discriminate.
Qed.

Lemma srt_attribute_error_keeps_earlier_cues_witness :
  xml_caption_to_srt third_without_t =
    mk_outcome [KeyError "t"]
      (Ok (Str.strip (Str.join LF [cue_block 1 "00:00:00,320" "00:00:01,750" "A"]))).
Proof.
  destruct (fromstring third_without_t) as [root|] eqn:Hroot; [|vm_compute in Hroot; discriminate].
  destruct (ET.find "body" root) as [child|] eqn:Hchild;
    [|vm_compute in Hroot; injection Hroot as <-; vm_compute in Hchild; discriminate].
  refine (proj1 (srt_attribute_error_keeps_earlier_cues third_without_t root child 1
                   (KeyError "t") [cue_block 1 "00:00:00,320" "00:00:01,750" "A"]
                   Hroot Hchild _ _));
    vm_compute in Hroot; injection Hroot as <-;
    vm_compute in Hchild; injection Hchild as <-.
  - vm_compute. reflexivity.
  - eexists. split; [vm_compute; reflexivity|].
    right. exists 1750%float, "B". split; [vm_compute; reflexivity|].
    split; [vm_compute; reflexivity|].
    left. eexists. split; [vm_compute; reflexivity|].
    vm_compute. reflexivity.
Defined.

(** C7, at a [vssId] that is a lone dot: the [Caption] is constructed and
    its code is empty. *)
Lemma lone_dot_has_empty_code :
  exists c, Caption_init lone_dot = Ok c /\ vssId lone_dot = Some "." /\ code c = "".
Proof. eexists. repeat split. Qed.

Lemma code_is_stripped_vssId_witness :
  exists c v a b,
    Caption_init english = Ok c /\
    code c = "en" /\
    vssId english = Some v /\
    v = dots a ++ code c ++ dots b /\
    dot_free_ends (code c) /\
    (code c = "" <-> exists n, v = dots n).
Proof.
  destruct (Caption_init english) as [c|] eqn:Hc; [|vm_compute in Hc; discriminate].
  destruct (code_is_stripped_vssId english c Hc) as (v & a & b & H).
  exists c, v, a, b. split; [reflexivity|]. split; [|exact H].
  vm_compute in Hc. injection Hc as <-. reflexivity.
Defined.

Lemma name_is_last_run_text_witness :
  exists c,
    Caption_init (with_runs [mk_run (Some "English"); mk_run (Some " (auto-generated)");
                             mk_run None]) = Ok c /\
    name c = Some " (auto-generated)".
Proof.
  destruct (Caption_init (with_runs [mk_run (Some "English");
                                     mk_run (Some " (auto-generated)"); mk_run None]))
    as [c|] eqn:Hc; [|discriminate Hc].
  exists c. split; [reflexivity|].
  apply (name_is_last_run_text
           (with_runs [mk_run (Some "English"); mk_run (Some " (auto-generated)");
                       mk_run None])
           {| simpleText := None;
              runs := Some [mk_run (Some "English"); mk_run (Some " (auto-generated)");
                            mk_run None] |}
           [mk_run (Some "English")] [mk_run None]
           (mk_run (Some " (auto-generated)")) " (auto-generated)" c);
    [reflexivity | reflexivity | reflexivity | reflexivity | | exact Hc].
  constructor; [reflexivity | constructor].
Defined.



Lemma normalize_normalized_witness :
  has_reference "AT&T, R&D & more &c." = false /\
  normalize "AT&T, R&D & more &c." = Ok "AT&T, R&D & more &c.".
Proof.
  split; [vm_compute; reflexivity|].
  apply normalize_normalized; vm_compute; reflexivity.
Defined.

(** ** Further properties *)

(** *** What the generators return once the text is parsed *)

Section Generator_results.
Context {lib : PyLib}.

(** Once the parser has accepted the text, neither generator raises:
    each returns a string, and prints at most one traceback. *)
Theorem parsed_input_never_raises (xml_captions : string) (root : Element) :
  fromstring xml_captions = Ok root ->
  (exists out, result (xml_caption_to_srt xml_captions) = Ok out) /\
  (List.length (stderr (xml_caption_to_srt xml_captions)) <= 1)%nat /\
  (exists out, result (xml_caption_to_transcript xml_captions) = Ok out) /\
  (List.length (stderr (xml_caption_to_transcript xml_captions)) <= 1)%nat.
Proof.
  intros Hparse. unfold xml_caption_to_srt, xml_caption_to_transcript.
  rewrite Hparse. unfold try_print_then.
  destruct (srt_block root []) as [st1 [[]|e1]];
    destruct (transcript_block root []) as [st2 [[]|e2]]; simpl;
    repeat split; eauto.
Qed.

Lemma completed_prefix {A : Type} (f : nat -> exc A) (n : nat) :
  (exists out, map f (seq 0 n) = map Ok out) \/
  (exists k e out, (k < n)%nat /\ map f (seq 0 k) = map Ok out /\ f k = Raise e).
Proof.
  induction n as [|n [(out & Hout) | (k & e & out & Hk & Hout & He)]].
  - left. now exists [].
  - destruct (f n) as [a|e] eqn:Hn.
    + left. exists (out ++ [a])%list.
      rewrite seq_S, !map_app, Hout. simpl. now rewrite Hn.
    + right. exists n, e, out. split; [lia | split; assumption].
  - right. exists k, e, out. split; [lia | split; assumption].
Qed.

(** The SubRip text is made of the cue blocks of the leading iterations
    that complete, whatever ends the first one that does not (an absent
    or non-numeric attribute, a text on which [unescape] raises, or a
    time that the formatter rejects): either all [N] iterations complete
    and nothing is printed, or the iteration at some index [k] raises
    [e], which is printed, and no block of index [k] or more is in the
    result. *)
Theorem srt_is_the_completed_prefix (xml_captions : string) (root child : Element) :
  fromstring xml_captions = Ok root ->
  ET.find "body" root = Some child ->
  let ps := ET.findall "p" child in
  exists (k : nat) (blocks : list string),
    (k <= List.length ps)%nat /\
    map (cue_line ps) (seq 0 k) = map Ok blocks /\
    result (xml_caption_to_srt xml_captions) = Ok (Str.strip (Str.join LF blocks)) /\
    ((k = List.length ps /\ stderr (xml_caption_to_srt xml_captions) = []) \/
     (exists e, (k < List.length ps)%nat /\ cue_line ps k = Raise e /\
                stderr (xml_caption_to_srt xml_captions) = [e])).
Proof.
  intros Hparse Hbody ps.
  rewrite (srt_run _ _ _ Hparse Hbody). fold ps. cbv zeta. unfold try_print_then.
  destruct (completed_prefix (cue_line ps) (List.length ps))
    as [(out & Hout) | (k & e & out & Hk & Hout & He)].
  - exists (List.length ps), out.
    rewrite (for_each_collect (cue_line ps) (srt_step ps) _ out []
               (srt_step_cue_line ps) Hout).
    simpl. split; [lia | split; [assumption | split; [reflexivity | now left]]].
  - exists k, out.
    assert (Hrun : for_each (srt_step ps) (seq 0 (List.length ps)) [] = (out, Raise e)).
    { replace (List.length ps) with (k + S (List.length ps - S k))%nat by lia.
      rewrite seq_app. simpl seq.
      exact (for_each_stop (cue_line ps) (srt_step ps) _ _ k e out []
               (srt_step_cue_line ps) Hout He). }
    rewrite Hrun. simpl. split; [lia | split; [assumption | split; [reflexivity|]]].
    right. exists e. split; [lia | split; [assumption | reflexivity]].
Qed.

End Generator_results.

(** *** Stripped results *)

Lemma lstrip_no_space (s : string) : space_at_head (Str.lstrip s) = false.
Proof.
  remember (String.length s) as n eqn:Hn.
  assert (Hle : (String.length s <= n)%nat) by lia. clear Hn.
  revert s Hle. induction n as [|n IH]; intros [|b1 s1] Hle; simpl in Hle;
    try reflexivity; [lia|].
  cbn [Str.lstrip].
  destruct (Str.ascii_space b1) eqn:H1; [apply IH; lia|].
  destruct s1 as [|b2 s2]; [simpl; now rewrite H1|].
  destruct (Str.space2 b1 b2) eqn:H2; [apply IH; simpl in Hle; lia|].
  destruct s2 as [|b3 s3]; [simpl; now rewrite H1, H2|].
  destruct (Str.space3 b1 b2 b3) eqn:H3; [apply IH; simpl in Hle; lia|].
  simpl. now rewrite H1, H2, H3.
Qed.

Lemma lstrip_rev_no_space (s : string) : space_at_head_rev (Str.lstrip_rev s) = false.
Proof.
  remember (String.length s) as n eqn:Hn.
  assert (Hle : (String.length s <= n)%nat) by lia. clear Hn.
  revert s Hle. induction n as [|n IH]; intros [|b1 s1] Hle; simpl in Hle;
    try reflexivity; [lia|].
  cbn [Str.lstrip_rev].
  destruct (Str.ascii_space b1) eqn:H1; [apply IH; lia|].
  destruct s1 as [|b2 s2]; [simpl; now rewrite H1|].
  destruct (Str.space2 b2 b1) eqn:H2; [apply IH; simpl in Hle; lia|].
  destruct s2 as [|b3 s3]; [simpl; now rewrite H1, H2|].
  destruct (Str.space3 b3 b2 b1) eqn:H3; [apply IH; simpl in Hle; lia|].
  simpl. now rewrite H1, H2, H3.
Qed.

Lemma lstrip_rev_suffix (s : string) : exists pre, s = pre ++ Str.lstrip_rev s.
Proof.
  remember (String.length s) as n eqn:Hn.
  assert (Hle : (String.length s <= n)%nat) by lia. clear Hn.
  revert s Hle. induction n as [|n IH]; intros [|b1 s1] Hle; simpl in Hle;
    try (now exists ""); try lia.
  cbn [Str.lstrip_rev].
  destruct (Str.ascii_space b1).
  { destruct (IH s1) as (pre & Hpre); [lia|].
    exists (String b1 pre). simpl. now rewrite <- Hpre. }
  destruct s1 as [|b2 s2]; [now exists ""|].
  destruct (Str.space2 b2 b1).
  { destruct (IH s2) as (pre & Hpre); [simpl in Hle; lia|].
    exists (String b1 (String b2 pre)). simpl. now rewrite <- Hpre. }
  destruct s2 as [|b3 s3]; [now exists ""|].
  destruct (Str.space3 b3 b2 b1); [|now exists ""].
  destruct (IH s3) as (pre & Hpre); [simpl in Hle; lia|].
  exists (String b1 (String b2 (String b3 pre))). simpl. now rewrite <- Hpre.
Qed.

Lemma rstrip_prefix (s : string) : exists tl, s = Str.rstrip s ++ tl.
Proof.
  unfold Str.rstrip. destruct (lstrip_rev_suffix (Str.rev s)) as (pre & Hpre).
  exists (Str.rev pre).
  rewrite <- (rev_involutive s) at 1. rewrite Hpre at 1. apply rev_append.
Qed.

Lemma space_at_head_prefix (p tl : string) :
  space_at_head p = true -> space_at_head (p ++ tl) = true.
Proof.
  destruct p as [|b1 [|b2 [|b3 p]]]; simpl; try discriminate.
  - rewrite orb_false_r. now intros ->.
  - destruct (Str.ascii_space b1); [reflexivity|]. simpl.
    rewrite orb_false_r. intros ->. reflexivity.
  - trivial.
Qed.

Lemma strip_trimmed (s : string) : trimmed (Str.strip s).
Proof.
  unfold trimmed, Str.strip. split.
  - destruct (space_at_head (Str.rstrip (Str.lstrip s))) eqn:H; [|reflexivity].
    destruct (rstrip_prefix (Str.lstrip s)) as (tl & Htl).
    apply (space_at_head_prefix _ tl) in H. rewrite <- Htl in H.
    now rewrite lstrip_no_space in H.
  - unfold space_at_tail, Str.rstrip. rewrite rev_involutive.
    apply lstrip_rev_no_space.
Qed.

(** Every string that a generator returns is stripped: it neither starts
    nor ends with a whitespace character, also when an exception was
    caught on the way. *)
Theorem generated_text_is_trimmed {lib : PyLib} (xml_captions : string) :
  (forall out, result (xml_caption_to_srt xml_captions) = Ok out -> trimmed out) /\
  (forall out, result (xml_caption_to_transcript xml_captions) = Ok out -> trimmed out).
Proof.
  unfold xml_caption_to_srt, xml_caption_to_transcript, try_print_then.
  destruct (fromstring xml_captions) as [root|e]; [|split; intros out H; discriminate].
  destruct (srt_block root []) as [st1 [[]|e1]];
    destruct (transcript_block root []) as [st2 [[]|e2]]; simpl;
    split; intros out H; injection H as <-; apply strip_trimmed.
Qed.

(** *** Runs of spaces *)

Lemma replace_from_two_spaces (s : string) :
  Str.replace_from "  " " " O (String " " (String " " s))
  = String " " (Str.replace_from "  " " " O s).
Proof.
  assert (Hp : String.prefix "  " (String " " (String " " s)) = true)
    by (destruct s; reflexivity).
  cbn [Str.replace_from]. rewrite Hp. reflexivity.
Qed.

Lemma replace_double_spaces (n : nat) :
  Str.replace "  " " " (spaces n) = spaces (Nat.div2 (n + 1)).
Proof.
  unfold Str.replace.
  assert (H : forall m, (m <= n)%nat ->
            Str.replace_from "  " " " O (spaces m) = spaces (Nat.div2 (m + 1))).
  { induction n as [|n IH]; intros m Hm.
    - now replace m with O by lia.
    - destruct m as [|[|m]]; [reflexivity | reflexivity |].
      cbn [spaces]. rewrite replace_from_two_spaces, (IH m) by lia.
      replace (S (S m) + 1)%nat with (S (S (m + 1))) by lia. reflexivity. }
  now apply H.
Qed.

Lemma contains_spaces (c : ascii) (n : nat) :
  c <> " "%char -> Str.contains (String c "") (spaces n) = false.
Proof.
  intros Hc. induction n as [|n IH]; [reflexivity|].
  cbn [spaces Str.contains String.prefix].
  destruct (ascii_dec c " ") as [Heq|_]; [contradiction|]. exact IH.
Qed.

(** The replacement of two spaces by one is a single pass: a text of [n]
    spaces is normalized to half as many, rounded up, so a run of three or
    more spaces is shortened but not collapsed to one. *)
Theorem normalize_halves_spaces {lib : PyLib} (n : nat) :
  normalize (spaces n) = Ok (spaces (Nat.div2 (n + 1))).
Proof.
  unfold normalize.
  rewrite (replace_absent LF " " (spaces n)) by (now apply contains_spaces).
  rewrite replace_double_spaces.
  unfold Html.unescape.
  rewrite (contains_spaces "&") by discriminate. reflexivity.
Qed.

(** *** More on the construction of a [Caption] *)

(** On a descriptor whose values have the types of [CaptionTrack] (the
    [name] a mapping, its [runs] a list of mappings, the [vssId] a
    string, each present or absent), the construction succeeds exactly
    when the descriptor has a [name] with a [simpleText] or a [runs], and
    a [vssId]; it fails with the [KeyError] of the first key it misses,
    [name], then [runs], then [vssId], and with nothing else. *)
Theorem construction_succeeds_iff (caption_track : CaptionTrack) :
  ((exists c, Caption_init caption_track = Ok c) <->
   (exists name_dict v,
      track_name caption_track = Some name_dict /\
      vssId caption_track = Some v /\
      (simpleText name_dict <> None \/ runs name_dict <> None))) /\
  (forall e, Caption_init caption_track = Raise e ->
     (track_name caption_track = None /\ e = KeyError "name") \/
     (exists name_dict,
        track_name caption_track = Some name_dict /\
        ((simpleText name_dict = None /\ runs name_dict = None /\ e = KeyError "runs") \/
         ((simpleText name_dict <> None \/ runs name_dict <> None) /\
          vssId caption_track = None /\ e = KeyError "vssId")))).
Proof.
  unfold Caption_init.
  destruct (track_name caption_track) as [nd|]; simpl.
  2:{ split; [split|].
      - intros (c & H). discriminate.
      - intros (nd & v & H & _). discriminate.
      - intros e H. injection H as <-. now left. }
  assert (Hpresent :
    forall nm : option string,
      (simpleText nd <> None \/ runs nd <> None) ->
      ((exists c, bind (bind (Ok nm) (fun name => bind (getitem "vssId" (vssId caption_track))
                    (fun code => Ok {| url := baseUrl caption_track; name := name;
                                       code := Str.strip_char "." code |})))
                    (fun c => Ok c) = Ok c) <->
       (exists name_dict v, Some nd = Some name_dict /\ vssId caption_track = Some v /\
          (simpleText name_dict <> None \/ runs name_dict <> None))) /\
      (forall e, bind (Ok nm) (fun name => bind (getitem "vssId" (vssId caption_track))
                    (fun code => Ok {| url := baseUrl caption_track; name := name;
                                       code := Str.strip_char "." code |})) = Raise e ->
         (Some nd = None /\ e = KeyError "name") \/
         (exists name_dict, Some nd = Some name_dict /\
            ((simpleText name_dict = None /\ runs name_dict = None /\ e = KeyError "runs") \/
             ((simpleText name_dict <> None \/ runs name_dict <> None) /\
              vssId caption_track = None /\ e = KeyError "vssId"))))).
  { intros nm Hor. simpl. destruct (vssId caption_track) as [v|]; simpl.
    - split; [split|].
      + intros _. exists nd, v. auto.
      + intros _. eexists. reflexivity.
      + intros e H. discriminate.
    - split; [split|].
      + intros (c & H). discriminate.
      + intros (nd' & v & _ & H & _). discriminate.
      + intros e H. injection H as <-. right. exists nd. split; [reflexivity|].
        right. auto. }
  destruct (simpleText nd) as [t|] eqn:Hsimple; simpl.
  - destruct (Hpresent (Some t)) as [Hiff Hfail]; [left; discriminate|].
    simpl in Hiff, Hfail. split; [|exact Hfail].
    destruct (vssId caption_track); simpl in *; exact Hiff.
  - destruct (runs nd) as [els|] eqn:Hruns; simpl.
    + destruct (Hpresent (assign_run_texts els None)) as [Hiff Hfail];
        [right; discriminate|].
      simpl in Hiff, Hfail. split; [|exact Hfail].
      destruct (vssId caption_track); simpl in *; exact Hiff.
    + split; [split|].
      * intros (c & H). discriminate.
      * intros (nd' & v & Hn & _ & Hor). injection Hn as <-.
        destruct Hor as [Hor|Hor]; now destruct Hor.
      * intros e H. injection H as <-. right. exists nd. split; [reflexivity|].
        left. auto.
Qed.

Lemma lstrip_char_id (s : string) :
  (forall r, s <> String "." r) -> Str.lstrip_char "." s = s.
Proof.
  intros H. destruct s as [|c s]; [reflexivity|]. simpl.
  destruct (Ascii.eqb_spec c ".") as [->|_]; [now destruct (H s) | reflexivity].
Qed.

(** A [vssId] that neither starts nor ends with a dot is stored as it is:
    the dots inside it stay. *)
Theorem dot_free_vssId_is_kept (caption_track : CaptionTrack) (c : Caption)
    (v : string) :
  Caption_init caption_track = Ok c ->
  vssId caption_track = Some v ->
  dot_free_ends v ->
  code c = v.
Proof.
  unfold Caption_init. intros H Hv [Hhead Htail].
  destruct (track_name caption_track) as [nd|]; simpl in H; [|discriminate].
  destruct (match simpleText nd with
            | Some t => Ok (Some t)
            | None => bind (getitem "runs" (runs nd))
                        (fun els => Ok (assign_run_texts els None))
            end) as [nm|]; simpl in H; [|discriminate].
  rewrite Hv in H. simpl in H. injection H as <-. simpl.
  unfold Str.strip_char. rewrite (lstrip_char_id v Hhead).
  rewrite lstrip_char_id; [apply rev_involutive|].
  intros r Hr. apply (Htail (Str.rev r)).
  rewrite <- (rev_involutive v), Hr, rev_cons. reflexivity.
Qed.

Lemma assigned_name_stays (els : list Run) (t : string) :
  exists t', assign_run_texts els (Some t) = Some t'.
Proof.
  unfold assign_run_texts. revert t.
  induction els as [|el els IH]; intros t; simpl; [eauto|].
  destruct (run_text el); apply IH.
Qed.

Lemma unassigned_name (els : list Run) :
  assign_run_texts els None = None -> Forall (fun r => run_text r = None) els.
Proof.
  induction els as [|el els IH]; intros H; [constructor|].
  unfold assign_run_texts in H. simpl in H.
  destruct (run_text el) as [t|] eqn:Hel.
  - destruct (assigned_name_stays els t) as (t' & Ht').
    unfold assign_run_texts in Ht'. congruence.
  - constructor; [assumption | now apply IH].
Qed.

(** The printable representation of a constructed [Caption] fails exactly
    when the name of the descriptor had no [simpleText] and none of its
    runs had a text; otherwise it shows the name and the code. *)
Theorem repr_fails_iff_no_name (caption_track : CaptionTrack) (name_dict : NameDict)
    (c : Caption) :
  Caption_init caption_track = Ok c ->
  track_name caption_track = Some name_dict ->
  (Caption_repr c = Raise (AttributeError "name") <->
   simpleText name_dict = None /\
   exists els, runs name_dict = Some els /\ Forall (fun r => run_text r = None) els) /\
  (forall nm, name c = Some nm ->
     Caption_repr c = Ok ("<Caption lang=" ++ QUOTE ++ nm ++ QUOTE
                            ++ " code=" ++ QUOTE ++ code c ++ QUOTE ++ ">")).
Proof.
  unfold Caption_init. intros H Hname. rewrite Hname in H. simpl in H.
  split.
  - destruct (simpleText name_dict) as [t|]; simpl in H.
    + destruct (vssId caption_track); simpl in H; [|discriminate].
      injection H as <-. split; [discriminate | intros [Hn _]; discriminate].
    + destruct (runs name_dict) as [els|]; simpl in H; [|discriminate].
      destruct (vssId caption_track); simpl in H; [|discriminate].
      injection H as <-. unfold Caption_repr. simpl.
      destruct (assign_run_texts els None) as [nm|] eqn:Hnm.
      * split; [discriminate|]. intros (_ & els' & Hels & Hnone).
        injection Hels as <-. rewrite (assign_run_texts_none _ _ Hnone) in Hnm.
        discriminate.
      * split; [|reflexivity]. intros _. split; [reflexivity|].
        exists els. split; [reflexivity | now apply unassigned_name].
  - intros nm Hnm. unfold Caption_repr. now rewrite Hnm.
Qed.

(** *** The shape of a time stamp *)

Lemma two_digits_length (z : Z) :
  0 <= z < 100 -> String.length (Time.two_digits z) = 2%nat.
Proof.
  intros Hz. rewrite <- (Z2Nat.id z) by lia.
  assert (Hk : (Z.to_nat z < 100)%nat) by lia.
  revert Hk. generalize (Z.to_nat z). clear. intros k Hk.
  do 100 (destruct k as [|k]; [reflexivity|]). lia.
Qed.

(** Whenever the formatter of seconds returns, its result starts with two
    digits of hours, minutes and seconds, separated by colons and followed
    by a comma; the hours are below 24 (a time of a day or more, or a
    negative one, wraps around) and the minutes and seconds below 60. *)
Theorem time_stamp_shape (d : float) (out : string) :
  float_to_srt_time_format d = Ok out ->
  exists h m s ms,
    out = Time.two_digits h ++ ":" ++ Time.two_digits m ++ ":"
          ++ Time.two_digits s ++ "," ++ ms /\
    0 <= h < 24 /\ 0 <= m < 60 /\ 0 <= s < 60 /\
    String.length (Time.two_digits h) = 2%nat /\
    String.length (Time.two_digits m) = 2%nat /\
    String.length (Time.two_digits s) = 2%nat.
Proof.
  unfold float_to_srt_time_format.
  destruct (PyFloat.modf d) as [fraction whole].
  unfold Time.gmtime.
  destruct (is_nan whole); [discriminate|].
  destruct (Time.floor_seconds whole) as [t|]; [|discriminate].
  destruct (negb ((- 2 ^ 63 <=? t) && (t <=? 2 ^ 63))); [discriminate|].
  destruct (negb (Time.fits_int _)); [discriminate|].
  cbn [bind]. unfold Time.strftime_HMS_comma. cbn [Time.tm_year].
  destruct (negb (Time.fits_int _)); [discriminate|].
  cbn [bind]. intros H. injection H as <-.
  pose proof (Z.mod_pos_bound t 86400 ltac:(lia)) as Hs.
  set (sec := t mod 86400) in *.
  assert (Hh : 0 <= sec / 3600 < 24).
  { split; [apply Z.div_pos; lia | apply Z.div_lt_upper_bound; lia]. }
  pose proof (Z.mod_pos_bound (sec / 60) 60 ltac:(lia)) as Hm.
  pose proof (Z.mod_pos_bound sec 60 ltac:(lia)) as Hsec.
  exists (sec / 3600), ((sec / 60) mod 60), (sec mod 60),
         (Str.replace "0." "" (PyFloat.format_3f fraction)).
  cbn [Time.tm_hour Time.tm_min Time.tm_sec].
  split.
  { rewrite append_assoc. simpl. rewrite append_assoc. simpl.
    rewrite append_assoc. reflexivity. }
  repeat split; try lia; apply two_digits_length; lia.
Qed.

(** *** The file that [download] writes *)

Lemma prefix_append (a b : string) : String.prefix a (a ++ b) = true.
Proof.
  induction a as [|c a IH]; simpl; [now destruct b|].
  destruct (ascii_dec c c) as [_|Hc]; [exact IH | now destruct Hc].
Qed.

Lemma prefix_split (a b : string) :
  String.prefix a b = true -> exists r, b = a ++ r.
Proof.
  revert b. induction a as [|c a IH]; intros b H; [now exists b|].
  destruct b as [|x b]; simpl in H; [discriminate|].
  destruct (ascii_dec c x) as [->|_]; [|discriminate].
  destruct (IH b H) as (r & ->). now exists r.
Qed.

Lemma endswith_append (stem suffix : string) : endswith suffix (stem ++ suffix) = true.
Proof. unfold endswith. rewrite rev_append. apply prefix_append. Qed.

Lemma endswith_split (suffix s : string) :
  endswith suffix s = true -> exists stem, s = stem ++ suffix.
Proof.
  unfold endswith. intros H. apply prefix_split in H as (r & Hr).
  exists (Str.rev r).
  rewrite <- (rev_involutive s), Hr, rev_append, rev_involutive. reflexivity.
Qed.

Lemma split_char_nonempty (sep : ascii) (s : string) : split_char sep s <> [].
Proof.
  destruct s as [|c s]; simpl; [discriminate|].
  destruct (Ascii.eqb c sep); [discriminate|].
  destruct (split_char sep s); discriminate.
Qed.

Lemma split_char_plain (sep : ascii) (s : string) :
  Str.contains (String sep "") s = false -> split_char sep s = [s].
Proof.
  induction s as [|c s IH]; intros H; [reflexivity|].
  cbn [Str.contains String.prefix] in H.
  destruct (ascii_dec sep c) as [->|Hne].
  - now destruct s.
  - simpl in H. simpl. destruct (Ascii.eqb_spec c sep) as [->|_]; [now destruct Hne|].
    now rewrite (IH H).
Qed.

Lemma split_char_snoc (sep : ascii) (s ext : string) :
  Str.contains (String sep "") ext = false ->
  split_char sep (s ++ String sep ext) = (split_char sep s ++ [ext])%list.
Proof.
  intros Hext. induction s as [|c s IH]; simpl.
  - rewrite Ascii.eqb_refl. now rewrite (split_char_plain sep ext Hext).
  - destruct (Ascii.eqb c sep); rewrite IH; [reflexivity|].
    pose proof (split_char_nonempty sep s) as Hne.
    destruct (split_char sep s) as [|h t]; [now destruct Hne | reflexivity].
Qed.

Lemma join_cons (sep x y : string) (l : list string) :
  Str.join sep (x :: y :: l) = x ++ sep ++ Str.join sep (y :: l).
Proof. reflexivity. Qed.

Lemma join_split_char (sep : ascii) (s : string) :
  Str.join (String sep "") (split_char sep s) = s.
Proof.
  induction s as [|c s IH]; [reflexivity|].
  simpl. pose proof (split_char_nonempty sep s) as Hne.
  destruct (Ascii.eqb_spec c sep) as [->|_].
  - destruct (split_char sep s) as [|h t]; [now destruct Hne|].
    rewrite join_cons, IH. reflexivity.
  - destruct (split_char sep s) as [|h [|h' t]]; [now destruct Hne | |].
    + unfold Str.join in *. simpl in *. now rewrite IH.
    + rewrite join_cons. rewrite join_cons in IH. rewrite <- IH. reflexivity.
Qed.

Lemma stem_of_suffixed (stem ext : string) :
  Str.contains "." ext = false ->
  Str.join "." (removelast (split_char "." (stem ++ String "." ext))) = stem.
Proof.
  intros Hext. rewrite (split_char_snoc "." stem ext Hext), removelast_last.
  apply join_split_char.
Qed.

(** The stem of the file name is the title without one final [.srt] or
    [.xml], and nothing more: a title [stem.srt] or [stem.xml] gives
    [stem], whatever dots [stem] has, and a title with neither ending (a
    [.txt] among them) is kept whole. *)
Theorem title_stem_drops_one_suffix :
  (forall stem, title_stem (stem ++ ".srt") = stem) /\
  (forall stem, title_stem (stem ++ ".xml") = stem) /\
  (forall title,
     (forall stem, title <> stem ++ ".srt") ->
     (forall stem, title <> stem ++ ".xml") ->
     title_stem title = title).
Proof.
  unfold title_stem. split; [|split].
  - intros stem. rewrite (endswith_append stem ".srt"). simpl.
    now apply (stem_of_suffixed stem "srt").
  - intros stem. rewrite (endswith_append stem ".xml"), orb_true_r.
    now apply (stem_of_suffixed stem "xml").
  - intros title Hsrt Hxml.
    destruct (endswith ".srt" title) eqn:H1;
      [apply endswith_split in H1 as (stem & H1); now destruct (Hsrt stem)|].
    destruct (endswith ".xml" title) eqn:H2;
      [apply endswith_split in H2 as (stem & H2); now destruct (Hxml stem)|].
    reflexivity.
Qed.

Section Download_facts.
Context {lib : PyLib} {env : Env}.

Lemma write_file_same (path content : string) (fs : files) :
  write_file path content fs path = Some content.
Proof. unfold write_file. now rewrite String.eqb_refl. Qed.

(** When the directory is resolved, the file can be opened and the
    content is produced, [download] returns the path of the file, which
    is the name joined to the directory, and the file holds the content;
    the flag [srt] plays no part. *)
Theorem download_writes_the_content (self : Caption) (title : string) (srt : bool)
    (format output_path filename_prefix : option string) (fs : files)
    (dir text : string) :
  target_directory output_path = Ok dir ->
  let file_path :=
    path_join dir (download_filename self title format filename_prefix) in
  writable file_path = true ->
  result (download_content self format) = Ok text ->
  result (snd (download self title srt format output_path filename_prefix fs))
    = Ok file_path /\
  fst (download self title srt format output_path filename_prefix fs) file_path
    = Some text.
Proof.
  intros Hdir file_path Hopen Htext. unfold download.
  rewrite Hdir. fold file_path. rewrite Hopen, Htext. simpl.
  split; [reflexivity | apply write_file_same].
Qed.

(** The file is opened before its content is computed: when the fetch or
    the parse raises, [download] raises the same exception and leaves the
    file empty, whatever it held before. *)
Theorem failed_download_empties_the_file (self : Caption) (title : string) (srt : bool)
    (format output_path filename_prefix : option string) (fs : files)
    (dir : string) (e : exn) :
  target_directory output_path = Ok dir ->
  let file_path :=
    path_join dir (download_filename self title format filename_prefix) in
  writable file_path = true ->
  result (download_content self format) = Raise e ->
  result (snd (download self title srt format output_path filename_prefix fs))
    = Raise e /\
  fst (download self title srt format output_path filename_prefix fs) file_path
    = Some "".
Proof.
  intros Hdir file_path Hopen Hfail. unfold download.
  rewrite Hdir. fold file_path. rewrite Hopen, Hfail. simpl.
  split; [reflexivity | apply write_file_same].
Qed.

(** A format that is neither [srt] nor [xml], [None] among them, gives a
    [.txt] file that holds the transcript. *)
Lemma other_formats_give_the_transcript (self : Caption) (format : option string) :
  format <> Some "srt" -> format <> Some "xml" ->
  extension format = ".txt" /\
  download_content self format = generate_transcript self.
Proof.
  intros Hsrt Hxml. unfold extension, download_content, format_is.
  destruct format as [f|]; [|split; reflexivity].
  destruct (String.eqb_spec f "srt") as [->|_]; [now destruct Hsrt|].
  destruct (String.eqb_spec f "xml") as [->|_]; [now destruct Hxml|].
  split; reflexivity.
Qed.

End Download_facts.

(** *** Line feeds in the transcript *)

Lemma has_char_append (c : ascii) (a b : string) :
  has_char c (a ++ b) = has_char c a || has_char c b.
Proof.
  induction a as [|x a IH]; [reflexivity|]. simpl. now rewrite IH, orb_assoc.
Qed.

Lemma has_char_rev (c : ascii) (s : string) : has_char c (Str.rev s) = has_char c s.
Proof.
  induction s as [|x s IH]; [reflexivity|].
  rewrite rev_cons, has_char_append, IH. simpl. rewrite orb_false_r. apply orb_comm.
Qed.

Lemma replace_from_removes_char (c : ascii) (new : string) (skip : nat) (s : string) :
  has_char c new = false ->
  has_char c (Str.replace_from (String c "") new skip s) = false.
Proof.
  intros Hnew. revert skip. induction s as [|x s IH]; intros skip; [reflexivity|].
  cbn [Str.replace_from]. destruct skip as [|k]; [|apply IH].
  cbn [String.prefix String.length Nat.pred].
  destruct (ascii_dec c x) as [->|Hne].
  - replace (String.prefix "" s) with true by (now destruct s).
    now rewrite has_char_append, Hnew, IH.
  - simpl. rewrite IH, orb_false_r.
    destruct (Ascii.eqb_spec x c) as [->|_]; [now destruct Hne | reflexivity].
Qed.

Lemma replace_from_adds_no_char (c : ascii) (old new : string) (skip : nat) (s : string) :
  has_char c new = false -> has_char c s = false ->
  has_char c (Str.replace_from old new skip s) = false.
Proof.
  intros Hnew. revert skip. induction s as [|x s IH]; intros skip Hs; [reflexivity|].
  simpl in Hs. apply orb_false_iff in Hs as [Hx Hs].
  cbn [Str.replace_from]. destruct skip as [|k]; [|now apply IH].
  destruct (String.prefix old (String x s)).
  - rewrite has_char_append, Hnew. now apply IH.
  - simpl. rewrite Hx. now apply IH.
Qed.

Lemma lstrip_suffix (s : string) : exists pre, s = pre ++ Str.lstrip s.
Proof.
  remember (String.length s) as n eqn:Hn.
  assert (Hle : (String.length s <= n)%nat) by lia. clear Hn.
  revert s Hle. induction n as [|n IH]; intros [|b1 s1] Hle; simpl in Hle;
    try (now exists ""); try lia.
  cbn [Str.lstrip].
  destruct (Str.ascii_space b1).
  { destruct (IH s1) as (pre & Hpre); [lia|].
    exists (String b1 pre). simpl. now rewrite <- Hpre. }
  destruct s1 as [|b2 s2]; [now exists ""|].
  destruct (Str.space2 b1 b2).
  { destruct (IH s2) as (pre & Hpre); [simpl in Hle; lia|].
    exists (String b1 (String b2 pre)). simpl. now rewrite <- Hpre. }
  destruct s2 as [|b3 s3]; [now exists ""|].
  destruct (Str.space3 b1 b2 b3); [|now exists ""].
  destruct (IH s3) as (pre & Hpre); [simpl in Hle; lia|].
  exists (String b1 (String b2 (String b3 pre))). simpl. now rewrite <- Hpre.
Qed.

Lemma strip_adds_no_char (c : ascii) (s : string) :
  has_char c s = false -> has_char c (Str.strip s) = false.
Proof.
  unfold Str.strip. intros H.
  destruct (lstrip_suffix s) as (pre & Hpre).
  destruct (rstrip_prefix (Str.lstrip s)) as (tl & Htl).
  rewrite Hpre, Htl, !has_char_append in H.
  apply orb_false_iff in H as [_ H]. now apply orb_false_iff in H as [H _].
Qed.

Lemma join_adds_no_char (c : ascii) (sep : string) (l : list string) :
  has_char c sep = false -> Forall (fun x => has_char c x = false) l ->
  has_char c (Str.join sep l) = false.
Proof.
  intros Hsep Hl. induction Hl as [|x l Hx Hl IH]; [reflexivity|].
  destruct l as [|y l]; [exact Hx|].
  rewrite join_cons, !has_char_append, Hx, Hsep. exact IH.
Qed.

Lemma normalize_without_ampersand {lib : PyLib} (text : string) :
  Str.contains "&" text = false ->
  exists c, normalize text = Ok c /\ has_char "010" c = false.
Proof.
  intros Hamp. unfold normalize, Html.unescape.
  assert (Hkeep : forall old new s, Str.contains "&" s = false ->
                    has_char "&" new = false ->
                    Str.contains "&" (Str.replace old new s) = false).
  { intros old new s Hs Hnew.
    assert (Hiff : forall t, Str.contains "&" t = has_char "&" t).
    { induction t as [|x t IHt]; [reflexivity|].
      cbn [Str.contains String.prefix has_char]. rewrite IHt.
      destruct (ascii_dec "&" x) as [<-|Hne].
      - now destruct t.
      - destruct (Ascii.eqb_spec x "&") as [->|_]; [now destruct Hne | reflexivity]. }
    rewrite Hiff in *. now apply replace_from_adds_no_char. }
  rewrite Hkeep by (try reflexivity; now apply Hkeep). simpl.
  eexists. split; [reflexivity|].
  apply replace_from_adds_no_char; [reflexivity|].
  now apply (replace_from_removes_char "010" " " O text).
Qed.

Lemma captions_without_ampersand {lib : PyLib} (ps : list Element) :
  Forall (fun p => Str.contains "&" (paragraph_text p) = false) ps ->
  exists captions,
    map caption_of ps = map Ok captions /\
    Forall (fun c => has_char "010" c = false) captions.
Proof.
  induction 1 as [|p ps Hp _ (captions & Hmap & Hfree)].
  - exists []. split; [reflexivity | constructor].
  - destruct (normalize_without_ampersand _ Hp) as (c & Hc & Hlf).
    exists (c :: captions). split; [|now constructor].
    simpl. unfold caption_of at 1. now rewrite Hc, Hmap.
Qed.

(** Whenever no paragraph has an ampersand in its text, the transcript
    holds no line feed: those of the texts have become spaces, and none
    comes back.  (A reference that [unescape] decodes can bring one.) *)
Theorem transcript_has_no_line_feed {lib : PyLib} (xml_captions : string)
    (root child : Element) (out : string) :
  fromstring xml_captions = Ok root ->
  ET.find "body" root = Some child ->
  Forall (fun p => Str.contains "&" (paragraph_text p) = false) (ET.findall "p" child) ->
  result (xml_caption_to_transcript xml_captions) = Ok out ->
  has_char "010" out = false.
Proof.
  intros Hparse Hbody Hplain.
  destruct (captions_without_ampersand _ Hplain) as (captions & Hmap & Hfree).
  unfold xml_caption_to_transcript. rewrite Hparse.
  unfold try_print_then, transcript_block, find_body. rewrite Hbody.
  rewrite (transcript_loop _ captions [] Hmap). simpl.
  intros H. injection H as <-.
  apply strip_adds_no_char, join_adds_no_char; [reflexivity|].
  clear Hmap. induction Hfree as [|c cs Hc _ IH]; [constructor|].
  simpl. destruct (nonempty c); [constructor|]; assumption.
Qed.

(** *** The further properties on concrete inputs *)

(** The names of [test_download], [test_download_with_prefix],
    [test_download_xml_and_trim_extension] and the path of
    [test_download_with_output_path], replayed. *)
Example test_download_names :
  let env := reference_env three_cues in
  download_filename caption1 "title" (Some "srt") None = "title (en).srt" /\
  download_filename caption1 "title" (Some "srt") (Some "1 ") = "1 title (en).srt" /\
  download_filename caption1 "title.xml" (Some "xml") None = "title (en).xml" /\
  result (snd (download caption1 "title" true (Some "srt") (Some "/target") None no_files))
    = Ok "/target/title (en).srt".
Proof. repeat split; vm_compute; reflexivity. Qed.

Lemma parsed_input_never_raises_witness :
  (exists out, result (xml_caption_to_srt third_without_t) = Ok out) /\
  (List.length (stderr (xml_caption_to_srt third_without_t)) <= 1)%nat /\
  (exists out, result (xml_caption_to_transcript third_without_t) = Ok out) /\
  (List.length (stderr (xml_caption_to_transcript third_without_t)) <= 1)%nat.
Proof.
  destruct (fromstring third_without_t) as [root|] eqn:Hroot;
    [|vm_compute in Hroot; discriminate Hroot].
  exact (parsed_input_never_raises third_without_t root Hroot).
Defined.

Lemma srt_is_the_completed_prefix_witness :
  exists child,
    let ps := ET.findall "p" child in
    List.length ps = 3%nat /\
    exists (k : nat) (blocks : list string),
      (k <= List.length ps)%nat /\
      map (cue_line ps) (seq 0 k) = map Ok blocks /\
      result (xml_caption_to_srt third_without_t) = Ok (Str.strip (Str.join LF blocks)) /\
      ((k = List.length ps /\ stderr (xml_caption_to_srt third_without_t) = []) \/
       (exists e, (k < List.length ps)%nat /\ cue_line ps k = Raise e /\
                  stderr (xml_caption_to_srt third_without_t) = [e])).
Proof.
  destruct (fromstring third_without_t) as [root|] eqn:Hroot;
    [|vm_compute in Hroot; discriminate Hroot].
  destruct (ET.find "body" root) as [child|] eqn:Hchild;
    [|vm_compute in Hroot; injection Hroot as <-; vm_compute in Hchild;
      discriminate Hchild].
  exists child. split.
  - vm_compute in Hroot. injection Hroot as <-.
    vm_compute in Hchild. injection Hchild as <-. vm_compute. reflexivity.
  - exact (srt_is_the_completed_prefix third_without_t root child Hroot Hchild).
Defined.

Lemma a_en_dot_free : dot_free_ends "a.en".
Proof.
  split; intros r H; [discriminate|].
  destruct r as [|a [|b [|c [|d r]]]]; simpl in H; try discriminate.
  injection H as _ _ _ _ H. destruct r; discriminate.
Qed.

Lemma dot_free_vssId_is_kept_witness :
  exists c, Caption_init (with_runs [mk_run (Some "English")]) = Ok c /\ code c = "a.en".
Proof.
  destruct (Caption_init (with_runs [mk_run (Some "English")])) as [c|] eqn:Hc;
    [|discriminate Hc].
  exists c. split; [reflexivity|].
  exact (dot_free_vssId_is_kept (with_runs [mk_run (Some "English")]) c "a.en"
           Hc eq_refl a_en_dot_free).
Defined.

Lemma repr_fails_iff_no_name_witness :
  exists c,
    Caption_init english = Ok c /\
    (Caption_repr c = Raise (AttributeError "name") <->
     simpleText {| simpleText := Some "name1"; runs := None |} = None /\
     exists els, runs {| simpleText := Some "name1"; runs := None |} = Some els /\
                 Forall (fun r => run_text r = None) els) /\
    (forall nm, name c = Some nm ->
       Caption_repr c = Ok ("<Caption lang=" ++ QUOTE ++ nm ++ QUOTE
                              ++ " code=" ++ QUOTE ++ code c ++ QUOTE ++ ">")).
Proof.
  destruct (Caption_init english) as [c|] eqn:Hc; [|discriminate Hc].
  exists c. split; [reflexivity|].
  exact (repr_fails_iff_no_name english _ c Hc eq_refl).
Defined.

Lemma time_stamp_shape_witness :
  exists h m s ms,
    "01:05:03,123" = Time.two_digits h ++ ":" ++ Time.two_digits m ++ ":"
                     ++ Time.two_digits s ++ "," ++ ms /\
    0 <= h < 24 /\ 0 <= m < 60 /\ 0 <= s < 60 /\
    String.length (Time.two_digits h) = 2%nat /\
    String.length (Time.two_digits m) = 2%nat /\
    String.length (Time.two_digits s) = 2%nat.
Proof.
  apply (time_stamp_shape (3903123 / 1000)%float). vm_compute. reflexivity.
Defined.

Lemma transcript_has_no_line_feed_witness :
  exists out,
    result (xml_caption_to_transcript test_document) = Ok out /\
    has_char "010" out = false.
Proof.
  destruct (fromstring test_document) as [root|] eqn:Hroot;
    [|vm_compute in Hroot; discriminate Hroot].
  destruct (ET.find "body" root) as [child|] eqn:Hchild;
    [|vm_compute in Hroot; injection Hroot as <-; vm_compute in Hchild;
      discriminate Hchild].
  destruct (result (xml_caption_to_transcript test_document)) as [out|] eqn:Hout;
    [|vm_compute in Hout; discriminate Hout].
  exists out. split; [reflexivity|].
  apply (transcript_has_no_line_feed test_document root child out Hroot Hchild);
    [|exact Hout].
  vm_compute in Hroot. injection Hroot as <-.
  vm_compute in Hchild. injection Hchild as <-.
  do 3 (constructor; [vm_compute; reflexivity|]). constructor.
Defined.

Lemma download_writes_the_content_witness :
  let env := reference_env three_cues in
  let file_path :=
    path_join "/target" (download_filename caption1 "title.srt" (Some "txt") None) in
  file_path = "/target/title (en).txt" /\
  result (snd (download caption1 "title.srt" false (Some "txt") None None old_file))
    = Ok file_path /\
  fst (download caption1 "title.srt" false (Some "txt") None None old_file) file_path
    = Some "A   B".
Proof.
  intros env file_path. split; [vm_compute; reflexivity|].
  apply (download_writes_the_content caption1 "title.srt" false (Some "txt") None None
           old_file "/target" "A   B"); vm_compute; reflexivity.
Defined.

Lemma failed_download_empties_the_file_witness :
  let env := reference_env three_cues in
  let file_path :=
    path_join "/target" (download_filename caption_without_url "title" (Some "srt") None) in
  old_file file_path = Some "an earlier download" /\
  result (snd (download caption_without_url "title" true (Some "srt") None None old_file))
    = Raise OSError /\
  fst (download caption_without_url "title" true (Some "srt") None None old_file) file_path
    = Some "".
Proof.
  intros env file_path. split; [vm_compute; reflexivity|].
  apply (failed_download_empties_the_file caption_without_url "title" true (Some "srt")
           None None old_file "/target" OSError); vm_compute; reflexivity.
Defined.
